(** * Thirai-Ulagam: the TMDb proxy function and the browser script

    A shallow embedding of [netlify/functions/tmdb.js] (the request
    dispatcher) and of [script.js] (row loader, hover-preview scheduler and
    hero controller), with the properties of the specification stated and
    proved over it.

    JavaScript strings are modelled as [string] (byte sequences, UTF-8),
    objects used as dictionaries as [gmap string string] or, where the
    insertion order is observable, as association lists.  Asynchronous
    functions are cut at their [await] points: the part that runs
    synchronously is one function, the continuation that runs when the awaited
    promise settles is another. *)

From stdpp Require Import base option list strings gmap.
From Stdlib Require Import ZArith Ascii String.

Set Warnings "-register-all".
Local Open Scope string_scope.
Local Close Scope list_scope.
Local Open Scope list_scope.
Local Open Scope Z_scope.

(** ** The JavaScript runtime pieces both files rely on *)

Module Runtime.

(** A settled promise, or the outcome of an expression that may throw:
    the value, or the [message] of the error. *)
Inductive Res (A : Type) : Type :=
| Ok (a : A)
| Throw (message : string).
Arguments Ok {A} a.
Arguments Throw {A} message.

(** Truthiness of a value that is a string or [undefined]. *)
Definition truthy (v : option string) : bool :=
  match v with
  | Some s => negb (String.eqb s "")
  | None => false
  end.

(** [v || d] where [v] is a string or [undefined] and [d] a string. *)
Definition or_else (v : option string) (d : string) : string :=
  match v with
  | Some s => if String.eqb s "" then d else s
  | None => d
  end.

(** [`${v}`]: a string-or-[undefined] value inside a template literal. *)
Definition interpolate (v : option string) : string :=
  match v with
  | Some s => s
  | None => "undefined"
  end.

(** [v || d] where [d] is a number: the result is a string or a number. *)
Definition or_number (v : option string) (d : Z) : string + Z :=
  match v with
  | Some s => if String.eqb s "" then inr d else inl s
  | None => inr d
  end.

(** *** URLSearchParams: the application/x-www-form-urlencoded serializer *)

Definition between (lo hi : N) (c : ascii) : bool :=
  ((lo <=? N_of_ascii c) && (N_of_ascii c <=? hi))%N.

Definition is_alphanumeric (c : ascii) : bool :=
  between 48 57 c || between 65 90 c || between 97 122 c.

(** Bytes left as they are: alphanumerics and [* - . _]. *)
Definition form_safe (c : ascii) : bool :=
  is_alphanumeric c
  || Ascii.eqb c "*" || Ascii.eqb c "-" || Ascii.eqb c "." || Ascii.eqb c "_".

Definition hex_upper (n : N) : ascii :=
  match n with
  | 0 => "0" | 1 => "1" | 2 => "2" | 3 => "3" | 4 => "4" | 5 => "5"
  | 6 => "6" | 7 => "7" | 8 => "8" | 9 => "9" | 10 => "A" | 11 => "B"
  | 12 => "C" | 13 => "D" | 14 => "E" | _ => "F"
  end%char%N.

Definition form_encode_byte (c : ascii) : string :=
  if form_safe c then String c ""
  else if Ascii.eqb c " " then "+"
  else String "%" (String (hex_upper (N_of_ascii c / 16))
                     (String (hex_upper (N_of_ascii c mod 16)) "")).

Fixpoint form_encode (s : string) : string :=
  match s with
  | EmptyString => ""
  | String c rest => form_encode_byte c +:+ form_encode rest
  end.

(** [new URLSearchParams(obj).toString()]: the entries in insertion order,
    [name=value] joined by [&]. *)
Fixpoint URLSearchParams_toString (entries : list (string * string)) : string :=
  match entries with
  | [] => ""
  | [(k, v)] => form_encode k +:+ "=" +:+ form_encode v
  | (k, v) :: rest =>
      form_encode k +:+ "=" +:+ form_encode v +:+ "&"
      +:+ URLSearchParams_toString rest
  end.

(** A JavaScript number as this code uses it.  The code never computes with
    a number, it only turns it into a string (in [URLSearchParams], in
    [dataset]); so a number is kept as the string that [String(n)] gives for
    it: ["878"] for 878, ["1e+21"] for 1e21, ["7.5"] for 7.5. *)
Inductive Number : Type :=
| Num (literal : string).

(** [String(n)] *)
Definition Number_toString (n : Number) : string :=
  match n with
  | Num literal => literal
  end.

(** *** JSON values and [JSON.stringify] *)

(** A number is kept as the literal [JSON.stringify] prints for it. *)
Inductive json : Type :=
| JNull
| JBool (b : bool)
| JNum (literal : string)
| JStr (s : string)
| JArr (items : list json)
| JObj (fields : list (string * json)).

Definition hex_lower (n : N) : ascii :=
  match n with
  | 0 => "0" | 1 => "1" | 2 => "2" | 3 => "3" | 4 => "4" | 5 => "5"
  | 6 => "6" | 7 => "7" | 8 => "8" | 9 => "9" | 10 => "a" | 11 => "b"
  | 12 => "c" | 13 => "d" | 14 => "e" | _ => "f"
  end%char%N.

(** The double quote, code 34. *)
Definition dquote : ascii := ascii_of_N 34.

(** QuoteJSONString on one byte. *)
Definition json_escape_byte (c : ascii) : string :=
  match N_of_ascii c with
  | 34 => String "\" (String dquote "")
  | 92 => "\\"
  | 8 => "\b"
  | 9 => "\t"
  | 10 => "\n"
  | 12 => "\f"
  | 13 => "\r"
  | n =>
      if (n <? 32)%N
      then "\u00" +:+ String (hex_lower (n / 16)) (String (hex_lower (n mod 16)) "")
      else String c ""
  end%N.

Fixpoint json_escape (s : string) : string :=
  match s with
  | EmptyString => ""
  | String c rest => json_escape_byte c +:+ json_escape rest
  end.

Definition json_quote (s : string) : string :=
  String dquote (json_escape s) +:+ String dquote "".

Fixpoint JSON_stringify (j : json) : string :=
  match j with
  | JNull => "null"
  | JBool true => "true"
  | JBool false => "false"
  | JNum literal => literal
  | JStr s => json_quote s
  | JArr items =>
      "[" +:+
      (fix elements (xs : list json) : string :=
         match xs with
         | [] => ""
         | [x] => JSON_stringify x
         | x :: rest => JSON_stringify x +:+ "," +:+ elements rest
         end) items
      +:+ "]"
  | JObj fields =>
      "{" +:+
      (fix members (fs : list (string * json)) : string :=
         match fs with
         | [] => ""
         | [(k, v)] => json_quote k +:+ ":" +:+ JSON_stringify v
         | (k, v) :: rest =>
             json_quote k +:+ ":" +:+ JSON_stringify v +:+ "," +:+ members rest
         end) fields
      +:+ "}"
  end.

End Runtime.

(** ** netlify/functions/tmdb.js: the request dispatcher *)

Module Tmdb.
Import Runtime.

(** The inbound event: [queryStringParameters] is an object or [null]. *)
Record Event := { queryStringParameters : option (gmap string string) }.

(** What the handler returns; [headers] is absent on some paths. *)
Record Envelope := {
  statusCode : Z;
  body : string;
  headers : option (list (string * string));
}.

(** The upstream [Response] as the handler observes it: its status and what
    [resp.text()] and [resp.json()] settle to. *)
Record Response := {
  status : Z;
  text : Res string;
  json_body : Res json;
}.

(** [resp.ok]: the status is in the range 200-299. *)
Definition ok (resp : Response) : bool :=
  ((200 <=? status resp) && (status resp <=? 299))%Z.

(** What [await fetch(url)] settles to: a rejection (network failure) or a
    response. *)
Inductive FetchResult : Type :=
| Rejected (message : string)
| Resolved (resp : Response).

(** [JSON.stringify({ error: message })]. *)
Definition error_body (message : string) : string :=
  JSON_stringify (JObj [("error", JStr message)]).

(** The object given to [URLSearchParams] on the discover path. *)
Definition discover_params (apiKey : string) (qs : gmap string string)
  : list (string * string) :=
  let genre := qs !! "genre" in
  let limit := or_number (qs !! "limit") 20 in
  [ ("api_key", apiKey);
    ("with_genres", or_else genre "");
    ("sort_by", or_else (qs !! "sort_by") "popularity.desc");
    ("page", Number_toString (Num "1")) ].

(** The first half of the [try] block: either an early [return] or the
    [targetUrl] to fetch. *)
Inductive Route : Type :=
| Return (e : Envelope)
| Target (targetUrl : string).

Definition route (apiKey : string) (qs : gmap string string) (type : string)
  : Route :=
  if String.eqb type "discover" then
    let params := URLSearchParams_toString (discover_params apiKey qs) in
    Target ("https://api.themoviedb.org/3/discover/movie?" +:+ params)
  else if String.eqb type "videos" then
    let movieId := qs !! "movieId" in
    if negb (truthy movieId)
    then Return {| statusCode := 400; body := error_body "movieId required";
                   headers := None |}
    else Target ("https://api.themoviedb.org/3/movie/" +:+ interpolate movieId
                 +:+ "/videos?api_key=" +:+ apiKey)
  else if String.eqb type "movie" then
    let movieId := qs !! "movieId" in
    if negb (truthy movieId)
    then Return {| statusCode := 400; body := error_body "movieId required";
                   headers := None |}
    else Target ("https://api.themoviedb.org/3/movie/" +:+ interpolate movieId
                 +:+ "?api_key=" +:+ apiKey)
  else
    Return {| statusCode := 400; body := error_body "Unknown type";
              headers := None |}.

(** [event.queryStringParameters || {}] *)
Definition query (event : Event) : gmap string string :=
  default ∅ (queryStringParameters event).

(** [qs.type || "discover"] *)
Definition request_type (event : Event) : string :=
  or_else (query event !! "type") "discover".

(** [exports.handler]: the envelope returned, and the upstream URLs fetched
    on the way, in order.  [env] is [process.env], [fetch] the upstream
    service as seen through the global [fetch]. *)
Definition handler (env : gmap string string) (fetch : string → FetchResult)
    (event : Event) : Envelope * list string :=
  let apiKey := env !! "TMDB_API_KEY" in
  if negb (truthy apiKey) then
    ({| statusCode := 500;
        body := error_body "TMDB_API_KEY not set in environment variables";
        headers := None |}, [])
  else
    let apiKey := interpolate apiKey in
    let qs := query event in
    let type := request_type event in
    let headers0 := [("Content-Type", "application/json")] in
    match route apiKey qs type with
    | Return e => (e, [])
    | Target targetUrl =>
        match fetch targetUrl with
        | Rejected message =>
            ({| statusCode := 500; body := error_body message;
                headers := None |}, [targetUrl])
        | Resolved resp =>
            if negb (ok resp) then
              match text resp with
              | Ok t =>
                  ({| statusCode := status resp; body := t;
                      headers := Some headers0 |}, [targetUrl])
              | Throw message =>
                  ({| statusCode := 500; body := error_body message;
                      headers := None |}, [targetUrl])
              end
            else
              match json_body resp with
              | Ok data =>
                  ({| statusCode := 200;
                      headers :=
                        Some (headers0 ++ [("Access-Control-Allow-Origin", "*")])%list;
                      body := JSON_stringify data |}, [targetUrl])
              | Throw message =>
                  ({| statusCode := 500; body := error_body message;
                      headers := None |}, [targetUrl])
              end
        end
    end.

(** The URL the handler fetches for an event, when it fetches one. *)
Definition target_url (apiKey : string) (event : Event) : option string :=
  match route apiKey (query event) (request_type event) with
  | Target targetUrl => Some targetUrl
  | Return _ => None
  end.

(** A query of one of the three kinds with what its kind requires:
    [discover] nothing, [videos] and [movie] a [movieId]. *)
Definition valid_query (event : Event) : bool :=
  String.eqb (request_type event) "discover"
  || ((String.eqb (request_type event) "videos"
       || String.eqb (request_type event) "movie")
      && truthy (query event !! "movieId")).

(** The parameters of a discover call as the specification words them, with
    [??]: a default stands in only for a missing value. *)
Definition spec_discover_params (apiKey : string) (qs : gmap string string)
  : list (string * string) :=
  [ ("api_key", apiKey);
    ("with_genres", default "" (qs !! "genre"));
    ("sort_by", default "popularity.desc" (qs !! "sort_by"));
    ("page", "1") ].

(** The same event with [type] set. *)
Definition with_type (type : string) (event : Event) : Event :=
  {| queryStringParameters := Some (<["type" := type]> (query event)) |}.

(** *** Sample inputs *)

Definition sample_env : gmap string string := {[ "TMDB_API_KEY" := "K" ]}.

(** [{results:[{id:1,title:"X"}]}] *)
Definition sample_page : json :=
  JObj [("results", JArr [JObj [("id", JNum "1"); ("title", JStr "X")]])].

Definition sample_upstream (url : string) : FetchResult :=
  Resolved {| status := 200; text := Ok (JSON_stringify sample_page);
              json_body := Ok sample_page |}.

Definition sample_not_found : Response :=
  {| status := 404; text := Ok "not found"; json_body := Throw "Unexpected token" |}.

Definition failing_upstream (url : string) : FetchResult :=
  Resolved sample_not_found.

Definition sample_event (qs : list (string * string)) : Event :=
  {| queryStringParameters := Some (list_to_map qs) |}.

(** A header is included in an envelope. *)
Definition has_header (name : string) (e : Envelope) : bool :=
  match headers e with
  | Some hs => bool_decide (name ∈ hs.*1)
  | None => false
  end.

End Tmdb.

(** ** script.js: the browser client *)

Module Script.
Import Runtime.

Record Genre := { g_id : Number; g_name : string }.

Definition GENRES : list Genre :=
  [ {| g_id := Num "878"; g_name := "AI" |};
    {| g_id := Num "528"; g_name := "Food" |};
    {| g_id := Num "18"; g_name := "Drama" |};
    {| g_id := Num "27"; g_name := "Horror" |};
    {| g_id := Num "35"; g_name := "Comedy" |} ].

Definition IMAGE_BASE : string := "https://image.tmdb.org/t/p/w500".

Definition YT_EMBED (key params : string) : string :=
  "https://www.youtube.com/embed/" +:+ key
  +:+ "?rel=0&enablejsapi=1&playsinline=1&" +:+ params.

(** A movie of a discover page; every field but [id] may be missing. *)
Record Movie := {
  m_id : Number;
  title : option string;
  name : option string;
  overview : option string;
  poster_path : option string;
  backdrop_path : option string;
}.

(** An entry of a movie's video list. *)
Record Video := { site : string; type : string; key : string }.

(** The decoded reply of the function: [data.results] may be missing. *)
Record Data (A : Type) := { results : option (list A) }.
Arguments results {A} d.

(** [data.results || []] *)
Definition results_or_empty {A} (data : Data A) : list A :=
  default [] (results data).

(** [a || b] where both are strings or [undefined]. *)
Definition or_value (a b : option string) : option string :=
  if truthy a then a else b.

(** The reply to [fetch(url)] as [tmdbFetch] observes it: [res.ok] and what
    [res.json()] settles to. *)
Record Reply (A : Type) := { res_ok : bool; res_json : Res A }.
Arguments res_ok {A} r.
Arguments res_json {A} r.

Inductive Fetched (A : Type) : Type :=
| Failed (message : string)
| Replied (res : Reply A).
Arguments Failed {A} message.
Arguments Replied {A} res.

(** [tmdbFetch] up to its first [await]: the URL requested. *)
Definition tmdbFetch_url (qs : list (string * string)) : string :=
  let params := URLSearchParams_toString qs in
  "/.netlify/functions/tmdb?" +:+ params.

(** [tmdbFetch] from the moment [fetch] settles. *)
Definition tmdbFetch_settle {A} (outcome : Fetched A) : Res A :=
  match outcome with
  | Failed message => Throw message
  | Replied res =>
      if negb (res_ok res) then Throw "TMDb function error" else res_json res
  end.

(** The network as the page sees it: what a request for a URL settles to,
    decoded as a discover page or as a video list according to the caller. *)
Record Network := {
  fetch_movies : string → Fetched (Data Movie);
  fetch_videos : string → Fetched (Data Video);
}.

(** The markup [<div style="STYLE">CONTENT</div>] of the notices. *)
Definition div_style (style content : string) : string :=
  "<div style=" +:+ String dquote style +:+ String dquote ">" +:+ content
  +:+ "</div>".

(** *** Preview selection *)

(** The predicate of [find] in [setHero]. *)
Definition hero_accepts (v : Video) : bool :=
  String.eqb (site v) "YouTube"
  && (String.eqb (type v) "Trailer" || String.eqb (type v) "Teaser").

(** The predicate of [find] in the hover preview of [createPosterCard]. *)
Definition card_accepts (v : Video) : bool :=
  String.eqb (site v) "YouTube"
  && (String.eqb (type v) "Trailer" || String.eqb (type v) "Teaser"
      || String.eqb (type v) "Clip").

(** [Array.prototype.find]: the first element satisfying the predicate, or
    [undefined]. *)
Fixpoint find {A} (p : A → bool) (xs : list A) : option A :=
  match xs with
  | [] => None
  | x :: rest => if p x then Some x else find p rest
  end.

(** *** Poster cards and their hover preview *)

(** What [frame.firstElementChild] holds: nothing yet, the YouTube iframe,
    or a notice set through [innerHTML]. *)
Inductive FrameContent : Type :=
| Placeholder
| Iframe (src : string)
| Notice (html : string).

(** A poster card: the element built by [createPosterCard] together with
    the state its listeners close over.  [frames] holds every preview frame
    the card has created, a frame being identified by its index there;
    [mounted] lists those that are children of the element, in document
    order; [timers] are the armed timeouts; [inflight] the frames of the
    timer callbacks suspended at [await tmdbFetch]; [requests] the URLs
    requested so far.  [dataset_id] is [el.dataset.id], a string; [img_alt]
    the [alt] attribute of the image, which reads [undefined] when the movie
    has neither title nor name; [title_text] the text of the title element,
    empty in that case. *)
Record Card := {
  movie : Movie;
  dataset_id : string;
  img_src : string;
  img_alt : string;
  title_text : string;
  previewTimer : option positive;
  next_handle : positive;
  timers : list positive;
  frames : list FrameContent;
  mounted : list nat;
  inflight : list nat;
  requests : list string;
}.

Definition createPosterCard (movie : Movie) : Card :=
  {| movie := movie;
     dataset_id := Number_toString (m_id movie);
     img_src := match poster_path movie with
                | Some p => if String.eqb p "" then "" else IMAGE_BASE +:+ p
                | None => ""
                end;
     img_alt := interpolate (or_value (title movie) (name movie));
     title_text := default "" (or_value (title movie) (name movie));
     previewTimer := None;
     next_handle := 1%positive;
     timers := [];
     frames := [];
     mounted := [];
     inflight := [];
     requests := [] |}.

(** The query of the hover preview and of the hero. *)
Definition videos_query (movie : Movie) : list (string * string) :=
  [("type", "videos"); ("movieId", Number_toString (m_id movie))].

(** The [mouseenter] listener: [previewTimer = setTimeout(..., 350)]. *)
Definition mouseenter (c : Card) : Card :=
  let handle := next_handle c in
  {| movie := movie c; dataset_id := dataset_id c; img_src := img_src c;
     img_alt := img_alt c; title_text := title_text c;
     previewTimer := Some handle;
     next_handle := Pos.succ handle;
     timers := timers c ++ [handle];
     frames := frames c; mounted := mounted c; inflight := inflight c;
     requests := requests c |}.

(** The [mouseleave] listener: clear the timeout held in [previewTimer], if
    any, and remove the first [.preview-frame] child, if any. *)
Definition mouseleave (c : Card) : Card :=
  {| movie := movie c; dataset_id := dataset_id c; img_src := img_src c;
     img_alt := img_alt c; title_text := title_text c;
     previewTimer := None;
     next_handle := next_handle c;
     timers := match previewTimer c with
               | Some handle => filter (λ h, h ≠ handle) (timers c)
               | None => timers c
               end;
     frames := frames c;
     mounted := match mounted c with
                | frame :: rest => rest
                | [] => []
                end;
     inflight := inflight c;
     requests := requests c |}.

(** The timeout callback up to [await tmdbFetch]: a fresh frame is appended
    to the element and the video list is requested. *)
Definition preview_begin (c : Card) : Card :=
  let frame := List.length (frames c) in
  {| movie := movie c; dataset_id := dataset_id c; img_src := img_src c;
     img_alt := img_alt c; title_text := title_text c;
     previewTimer := previewTimer c;
     next_handle := next_handle c;
     timers := timers c;
     frames := frames c ++ [Placeholder];
     mounted := mounted c ++ [frame];
     inflight := inflight c ++ [frame];
     requests := requests c ++ [tmdbFetch_url (videos_query (movie c))] |}.

(** The rest of the timeout callback, run when [tmdbFetch] settles: the
    frame created by this callback is filled, wherever it is by now. *)
Definition preview_settle (frame : nat) (outcome : Fetched (Data Video))
    (c : Card) : Card :=
  let content :=
    match tmdbFetch_settle outcome with
    | Ok data =>
        match find card_accepts (results_or_empty data) with
        | Some vid =>
            Iframe (YT_EMBED (key vid)
                      ("autoplay=1&mute=1&controls=0&loop=1&playlist=" +:+ key vid))
        | None =>
            Notice (div_style "padding:10px;color:#ddd;text-align:center"
                      "Preview not available")
        end
    | Throw err =>
        Notice (div_style "padding:10px;color:#ddd;text-align:center" "Preview failed")
    end in
  {| movie := movie c; dataset_id := dataset_id c; img_src := img_src c;
     img_alt := img_alt c; title_text := title_text c;
     previewTimer := previewTimer c;
     next_handle := next_handle c;
     timers := timers c;
     frames := <[frame := content]> (frames c);
     mounted := mounted c;
     inflight := filter (λ f, f ≠ frame) (inflight c);
     requests := requests c |}.

(** The timeout [handle] expires: it leaves the armed timers and its
    callback starts. *)
Definition timer_fires (handle : positive) (c : Card) : Card :=
  preview_begin
    {| movie := movie c; dataset_id := dataset_id c; img_src := img_src c;
       img_alt := img_alt c; title_text := title_text c;
       previewTimer := previewTimer c;
       next_handle := next_handle c;
       timers := filter (λ h, h ≠ handle) (timers c);
       frames := frames c; mounted := mounted c; inflight := inflight c;
       requests := requests c |}.

(** What can happen to a card.  A timeout can only expire while armed, a
    request can only settle while in flight. *)
Inductive Event : Type :=
| MouseEnter
| MouseLeave
| TimerFires (handle : positive)
| FetchSettles (frame : nat) (outcome : Fetched (Data Video)).

Definition step (e : Event) (c : Card) : option Card :=
  match e with
  | MouseEnter => Some (mouseenter c)
  | MouseLeave => Some (mouseleave c)
  | TimerFires handle =>
      if bool_decide (handle ∈ timers c) then Some (timer_fires handle c)
      else None
  | FetchSettles frame outcome =>
      if bool_decide (frame ∈ inflight c)
      then Some (preview_settle frame outcome c)
      else None
  end.

Fixpoint run (es : list Event) (c : Card) : option Card :=
  match es with
  | [] => Some c
  | e :: rest =>
      match step e c with
      | Some c' => run rest c'
      | None => None
      end
  end.

(** The three states the specification gives a card, read off the card:
    a frame is in the element, or else a timeout handle is held, or else
    neither. *)
Inductive CardPreviewState : Type :=
| Idle
| PendingFetch (timerHandle : positive)
| Mounted (frameRef : nat).

Definition preview_state (c : Card) : CardPreviewState :=
  match mounted c with
  | frame :: _ => Mounted frame
  | [] =>
      match previewTimer c with
      | Some handle => PendingFetch handle
      | None => Idle
      end
  end.

(** Nothing of a hover is left: no handle held, no timeout armed, no frame
    in the element. *)
Definition idle (c : Card) : Prop :=
  previewTimer c = None ∧ timers c = [] ∧ mounted c = [].

(** Enter and leave alternate in a run, [inside] telling whether the pointer
    is over the card when the run starts. *)
Fixpoint alternates (inside : bool) (es : list Event) : bool :=
  match es with
  | [] => true
  | MouseEnter :: rest => negb inside && alternates true rest
  | MouseLeave :: rest => inside && alternates false rest
  | _ :: rest => alternates inside rest
  end.

(** Where the pointer is after the run. *)
Fixpoint pointer_after (inside : bool) (es : list Event) : bool :=
  match es with
  | [] => inside
  | MouseEnter :: rest => pointer_after true rest
  | MouseLeave :: rest => pointer_after false rest
  | _ :: rest => pointer_after inside rest
  end.

(** During a hover the handle of its timeout is held, and either that
    timeout is armed and no frame is in the element, or it has expired and
    at most the frame of its callback is in the element. *)
Definition hovering (c : Card) : Prop :=
  ∃ handle, previewTimer c = Some handle
            ∧ ((timers c = [handle] ∧ mounted c = [])
               ∨ (timers c = [] ∧ (List.length (mounted c) ≤ 1)%nat)).

Definition settled (inside : bool) (c : Card) : Prop :=
  if inside then hovering c else idle c.

(** *** The page: rows and hero *)

Inductive TrackChild : Type :=
| CardNode (card : Card)
| HtmlNode (html : string).

Record Row := { row_title : string; track : list TrackChild }.

Inductive HeroNode : Type :=
| HeroIframe (src allow title : string)
| HeroPoster (backgroundImage : string).

Record Page := {
  rowsContainer : list Row;
  heroTitle : string;
  heroOverview : string;
  heroVideoContainer : list HeroNode;
  console : list string;
  fetched : list string;
}.

Definition set_track (i : nat) (f : list TrackChild → list TrackChild)
    (rows : list Row) : list Row :=
  alter (λ row, {| row_title := row_title row; track := f (track row) |}) i rows.

(** The query of a row. *)
Definition row_query (genre : Genre) : list (string * string) :=
  [("type", "discover"); ("genre", Number_toString (g_id genre));
   ("limit", Number_toString (Num "20"))].

Definition row_fallback (genre : Genre) : string :=
  div_style "padding:12px;color:#cfcfcf" ("Failed to load " +:+ g_name genre).

(** [makeRow]: the row is appended with an empty track, then the track,
    still the same object, is filled with cards or with the fallback. *)
Definition makeRow (net : Network) (genre : Genre) (p : Page) : Page :=
  let row := List.length (rowsContainer p) in
  let rows := rowsContainer p ++ [{| row_title := g_name genre; track := [] |}] in
  let url := tmdbFetch_url (row_query genre) in
  match tmdbFetch_settle (fetch_movies net url) with
  | Ok data =>
      {| rowsContainer :=
           foldl (λ rows movie,
                    set_track row (λ t, t ++ [CardNode (createPosterCard movie)]) rows)
                 rows (results_or_empty data);
         heroTitle := heroTitle p; heroOverview := heroOverview p;
         heroVideoContainer := heroVideoContainer p;
         console := console p;
         fetched := fetched p ++ [url] |}
  | Throw err =>
      {| rowsContainer := set_track row (λ _, [HtmlNode (row_fallback genre)]) rows;
         heroTitle := heroTitle p; heroOverview := heroOverview p;
         heroVideoContainer := heroVideoContainer p;
         console := console p ++ ["Failed to load row:"];
         fetched := fetched p ++ [url] |}
  end.

Definition row_url (genre : Genre) : string := tmdbFetch_url (row_query genre).

(** What the row of a bucket is to show given the outcome of its own
    request: its cards, or its fallback message. *)
Definition rendered_row (genre : Genre) (outcome : Fetched (Data Movie)) : Row :=
  {| row_title := g_name genre;
     track :=
       match tmdbFetch_settle outcome with
       | Ok data => (λ movie, CardNode (createPosterCard movie)) <$> results_or_empty data
       | Throw _ => [HtmlNode (row_fallback genre)]
       end |}.

(** The [for] loop of [init]: one row after the other. *)
Definition init_rows (net : Network) (p : Page) : Page :=
  foldl (λ p g, makeRow net g p) p GENRES.

(** [url(...)] of the fallback poster of the hero. *)
Definition hero_background (movie : Movie) : string :=
  if truthy (backdrop_path movie)
  then "url(" +:+ IMAGE_BASE +:+ interpolate (backdrop_path movie) +:+ ")"
  else if truthy (poster_path movie)
  then "url(" +:+ IMAGE_BASE +:+ interpolate (poster_path movie) +:+ ")"
  else "".

(** [setHero] up to [await tmdbFetch]: title and overview are written and
    the video list is requested. *)
Definition setHero_begin (movie : Movie) (p : Page) : Page :=
  {| rowsContainer := rowsContainer p;
     heroTitle := or_else (or_value (title movie) (name movie)) "Featured";
     heroOverview := or_else (overview movie) "";
     heroVideoContainer := heroVideoContainer p;
     console := console p;
     fetched := fetched p ++ [tmdbFetch_url (videos_query movie)] |}.

(** [setHero] from the moment [tmdbFetch] settles. *)
Definition setHero_settle (movie : Movie) (outcome : Fetched (Data Video))
    (p : Page) : Page :=
  match tmdbFetch_settle outcome with
  | Ok data =>
      let node :=
        match find hero_accepts (results_or_empty data) with
        | Some vid =>
            HeroIframe
              (YT_EMBED (key vid)
                 ("autoplay=1&mute=1&controls=1&loop=1&playlist=" +:+ key vid))
              "autoplay; encrypted-media; picture-in-picture"
              "Hero trailer"
        | None => HeroPoster (hero_background movie)
        end in
      {| rowsContainer := rowsContainer p;
         heroTitle := heroTitle p; heroOverview := heroOverview p;
         heroVideoContainer := [node];
         console := console p; fetched := fetched p |}
  | Throw err =>
      {| rowsContainer := rowsContainer p;
         heroTitle := heroTitle p; heroOverview := heroOverview p;
         heroVideoContainer := heroVideoContainer p;
         console := console p ++ ["Hero video fetch failed"];
         fetched := fetched p |}
  end.

Definition setHero (net : Network) (movie : Movie) (p : Page) : Page :=
  setHero_settle movie
    (fetch_videos net (tmdbFetch_url (videos_query movie)))
    (setHero_begin movie p).

Definition openHeroWithMovie := setHero.

(** [init]: the rows, then the featured movie. *)
Definition init (net : Network) (p : Page) : Page :=
  let p := init_rows net p in
  match GENRES with
  | first :: _ =>
      let url :=
        tmdbFetch_url
          [("type", "discover"); ("genre", Number_toString (g_id first));
           ("limit", Number_toString (Num "10")); ("sort_by", "vote_average.desc")] in
      let p' :=
        {| rowsContainer := rowsContainer p;
           heroTitle := heroTitle p; heroOverview := heroOverview p;
           heroVideoContainer := heroVideoContainer p;
           console := console p; fetched := fetched p ++ [url] |} in
      match tmdbFetch_settle (fetch_movies net url) with
      | Ok data =>
          match results_or_empty data with
          | featured :: _ => setHero net featured p'
          | [] => p'
          end
      | Throw err =>
          {| rowsContainer := rowsContainer p';
             heroTitle := heroTitle p'; heroOverview := heroOverview p';
             heroVideoContainer := heroVideoContainer p';
             console := console p' ++ ["Failed to set featured"];
             fetched := fetched p' |}
      end
  | [] =>
      {| rowsContainer := rowsContainer p;
         heroTitle := heroTitle p; heroOverview := heroOverview p;
         heroVideoContainer := heroVideoContainer p;
         console := console p ++ ["Failed to set featured"];
         fetched := fetched p |}
  end.

(** *** Sample inputs *)

Definition sample_movie : Movie :=
  {| m_id := Num "7"; title := Some "X"; name := None; overview := Some "About X";
     poster_path := Some "/p.jpg"; backdrop_path := Some "/b.jpg" |}.

(** The media list of the specification's selection example. *)
Definition sample_videos : list Video :=
  [ {| site := "Vimeo"; type := "Trailer"; key := "v1" |};
    {| site := "YouTube"; type := "Teaser"; key := "y1" |};
    {| site := "YouTube"; type := "Trailer"; key := "y2" |} ].

Definition sample_reply : Fetched (Data Video) :=
  Replied {| res_ok := true; res_json := Ok {| results := Some sample_videos |} |}.

Definition empty_page : Page :=
  {| rowsContainer := []; heroTitle := ""; heroOverview := "";
     heroVideoContainer := []; console := []; fetched := [] |}.

(** The function answers every video request with an error status. *)
Definition videos_down : Network :=
  {| fetch_movies :=
       λ _, Replied {| res_ok := true;
                       res_json := Ok {| results := Some [sample_movie] |} |};
     fetch_videos :=
       λ _, Replied {| res_ok := false; res_json := Throw "Unexpected token" |} |}.

(** The function answers every video request with an empty list. *)
Definition videos_empty : Network :=
  {| fetch_movies := fetch_movies videos_down;
     fetch_videos :=
       λ _, Replied {| res_ok := true; res_json := Ok {| results := Some [] |} |} |}.

(** The Food bucket fails, the others succeed. *)
Definition food_down : Network :=
  {| fetch_movies :=
       λ url, if String.eqb url "/.netlify/functions/tmdb?type=discover&genre=528&limit=20"
              then Failed "Failed to fetch"
              else fetch_movies videos_down url;
     fetch_videos := fetch_videos videos_down |}.

(** A discover page with one movie. *)
Definition movies_reply : Fetched (Data Movie) :=
  Replied {| res_ok := true; res_json := Ok {| results := Some [sample_movie] |} |}.

(** *** The rows, request by request *)

(** [makeRow] up to [await tmdbFetch]: the row is in the page with an empty
    track and its request is out. *)
Definition makeRow_begin (genre : Genre) (p : Page) : Page :=
  {| rowsContainer := rowsContainer p ++ [{| row_title := g_name genre; track := [] |}];
     heroTitle := heroTitle p; heroOverview := heroOverview p;
     heroVideoContainer := heroVideoContainer p;
     console := console p;
     fetched := fetched p ++ [tmdbFetch_url (row_query genre)] |}.

(** [makeRow] from the moment [tmdbFetch] settles; [row] is the place of its
    row in the container. *)
Definition makeRow_settle (genre : Genre) (row : nat)
    (outcome : Fetched (Data Movie)) (p : Page) : Page :=
  match tmdbFetch_settle outcome with
  | Ok data =>
      {| rowsContainer :=
           foldl (λ rows movie,
                    set_track row (λ t, t ++ [CardNode (createPosterCard movie)]) rows)
                 (rowsContainer p) (results_or_empty data);
         heroTitle := heroTitle p; heroOverview := heroOverview p;
         heroVideoContainer := heroVideoContainer p;
         console := console p; fetched := fetched p |}
  | Throw err =>
      {| rowsContainer :=
           set_track row (λ _, [HtmlNode (row_fallback genre)]) (rowsContainer p);
         heroTitle := heroTitle p; heroOverview := heroOverview p;
         heroVideoContainer := heroVideoContainer p;
         console := console p ++ ["Failed to load row:"];
         fetched := fetched p |}
  end.

(** The [for] loop of [init] between two events: the page, the genre whose
    request is in flight with the place of its row, and the genres the loop
    has not reached yet. *)
Record Loading := {
  loaded : Page;
  awaited : option (Genre * nat);
  upcoming : list Genre;
}.

(** The loop takes its next genre, if any, and runs [makeRow] up to its
    [await]. *)
Definition load_next (p : Page) (genres : list Genre) : Loading :=
  match genres with
  | [] => {| loaded := p; awaited := None; upcoming := [] |}
  | g :: rest =>
      {| loaded := makeRow_begin g p;
         awaited := Some (g, List.length (rowsContainer p));
         upcoming := rest |}
  end.

(** The request in flight settles: its [makeRow] finishes and the loop goes
    on.  Nothing else moves the loop. *)
Definition row_settles (outcome : Fetched (Data Movie)) (s : Loading)
  : option Loading :=
  match awaited s with
  | Some (g, row) =>
      Some (load_next (makeRow_settle g row outcome (loaded s)) (upcoming s))
  | None => None
  end.

Fixpoint rows_settle (outcomes : list (Fetched (Data Movie))) (s : Loading)
  : option Loading :=
  match outcomes with
  | [] => Some s
  | outcome :: rest =>
      match row_settles outcome s with
      | Some s' => rows_settle rest s'
      | None => None
      end
  end.

(** What the specification asks the row of a bucket to show for the outcome
    of its request, written out: the cards of the items of an ok reply that
    decodes, and otherwise the message that the bucket failed to load. *)
Definition spec_row (genre : Genre) (outcome : Fetched (Data Movie)) : Row :=
  {| row_title := g_name genre;
     track :=
       match outcome with
       | Replied (Build_Reply _ true (Ok (Build_Data _ (Some movies)))) =>
           (λ movie, CardNode (createPosterCard movie)) <$> movies
       | Replied (Build_Reply _ true (Ok (Build_Data _ None))) => []
       | _ =>
           [HtmlNode
              ("<div style=" +:+ String "034" "padding:12px;color:#cfcfcf"
               +:+ String "034" ">Failed to load " +:+ g_name genre +:+ "</div>")]
       end |}.

(** *** The hero, invocation by invocation *)

(** [setHero] is not awaited by the click listener, so invocations overlap:
    a movie is selected ([setHero] runs up to its [await]), the request of a
    selection settles (its [setHero] finishes).  In a run of the page every
    settlement follows its selection. *)
Inductive HeroEvent : Type :=
| Selected (movie : Movie)
| VideosSettle (movie : Movie) (outcome : Fetched (Data Video)).

Definition hero_step (e : HeroEvent) (p : Page) : Page :=
  match e with
  | Selected movie => setHero_begin movie p
  | VideosSettle movie outcome => setHero_settle movie outcome p
  end.

Definition hero_run (es : list HeroEvent) (p : Page) : Page :=
  foldl (λ p e, hero_step e p) p es.

(** The data of a reply that is ok and decodes. *)
Definition reply_data {A} (outcome : Fetched A) : option A :=
  match outcome with
  | Replied (Build_Reply _ true (Ok data)) => Some data
  | _ => None
  end.

(** The node the hero is to show for a movie and its video list, written
    out: the trailer or teaser found first, or else the backdrop, or else
    the poster, or else an empty poster node. *)
Definition spec_hero_node (movie : Movie) (data : Data Video) : HeroNode :=
  match find hero_accepts (default [] (results data)) with
  | Some vid =>
      HeroIframe
        ("https://www.youtube.com/embed/" +:+ key vid
         +:+ "?rel=0&enablejsapi=1&playsinline=1&autoplay=1&mute=1&controls=1&loop=1&playlist="
         +:+ key vid)
        "autoplay; encrypted-media; picture-in-picture" "Hero trailer"
  | None =>
      HeroPoster
        match backdrop_path movie, poster_path movie with
        | Some b, _ =>
            if decide (b = "")
            then match poster_path movie with
                 | Some q =>
                     if decide (q = "") then ""
                     else "url(https://image.tmdb.org/t/p/w500" +:+ q +:+ ")"
                 | None => ""
                 end
            else "url(https://image.tmdb.org/t/p/w500" +:+ b +:+ ")"
        | None, Some q =>
            if decide (q = "") then ""
            else "url(https://image.tmdb.org/t/p/w500" +:+ q +:+ ")"
        | None, None => ""
        end
  end.

(** The movie selected last in a run, and the node of the settlement that
    succeeded last. *)
Fixpoint last_selected (es : list HeroEvent) (before : option Movie) : option Movie :=
  match es with
  | [] => before
  | Selected movie :: rest => last_selected rest (Some movie)
  | VideosSettle _ _ :: rest => last_selected rest before
  end.

Fixpoint last_shown (es : list HeroEvent) (before : option HeroNode)
  : option HeroNode :=
  match es with
  | [] => before
  | Selected _ :: rest => last_shown rest before
  | VideosSettle movie outcome :: rest =>
      match reply_data outcome with
      | Some data => last_shown rest (Some (spec_hero_node movie data))
      | None => last_shown rest before
      end
  end.

End Script.


(** ** script.js: [initAuth] *)

Module Auth.

(** The identity widget, when [window.netlifyIdentity] exists: closed, or
    open on its default tab or on the tab named. *)
Inductive Widget : Type :=
| Closed
| Open (tab : option string).

Record User := { email : string }.

(** What [initAuth] reads and writes: the text of the login button, whether
    the fallback modal has the class [hidden], its title, the [display] style
    of the name field, its message, the widget, and the closure variable
    [forSignup]. *)
Record Dom := {
  loginBtn : string;
  modal_hidden : bool;
  fallbackTitle : string;
  nameField_display : string;
  fallbackMsg : string;
  widget : Widget;
  forSignup : bool;
}.

Inductive Event : Type :=
| ClickLogin
| ClickSignup
| ClickClose
| Submit
| IdentityLogin (user : User)
| IdentityLogout.

(** The listeners registered when the identity widget exists. *)
Definition step_identity (e : Event) (d : Dom) : Dom :=
  match e with
  | ClickLogin =>
      {| loginBtn := loginBtn d; modal_hidden := modal_hidden d;
         fallbackTitle := fallbackTitle d; nameField_display := nameField_display d;
         fallbackMsg := fallbackMsg d; widget := Open None; forSignup := forSignup d |}
  | ClickSignup =>
      {| loginBtn := loginBtn d; modal_hidden := modal_hidden d;
         fallbackTitle := fallbackTitle d; nameField_display := nameField_display d;
         fallbackMsg := fallbackMsg d; widget := Open (Some "signup");
         forSignup := forSignup d |}
  | IdentityLogin user =>
      {| loginBtn := email user; modal_hidden := modal_hidden d;
         fallbackTitle := fallbackTitle d; nameField_display := nameField_display d;
         fallbackMsg := fallbackMsg d; widget := Closed; forSignup := forSignup d |}
  | IdentityLogout =>
      {| loginBtn := "Login"; modal_hidden := modal_hidden d;
         fallbackTitle := fallbackTitle d; nameField_display := nameField_display d;
         fallbackMsg := fallbackMsg d; widget := widget d; forSignup := forSignup d |}
  | ClickClose | Submit => d
  end.

(** The listeners registered otherwise, on the fallback modal. *)
Definition step_fallback (e : Event) (d : Dom) : Dom :=
  match e with
  | ClickLogin =>
      {| loginBtn := loginBtn d; modal_hidden := false;
         fallbackTitle := "Login"; nameField_display := "none";
         fallbackMsg := fallbackMsg d; widget := widget d; forSignup := false |}
  | ClickSignup =>
      {| loginBtn := loginBtn d; modal_hidden := false;
         fallbackTitle := "Sign up"; nameField_display := "block";
         fallbackMsg := fallbackMsg d; widget := widget d; forSignup := true |}
  | ClickClose =>
      {| loginBtn := loginBtn d; modal_hidden := true;
         fallbackTitle := fallbackTitle d; nameField_display := nameField_display d;
         fallbackMsg := fallbackMsg d; widget := widget d; forSignup := forSignup d |}
  | Submit =>
      {| loginBtn := loginBtn d; modal_hidden := modal_hidden d;
         fallbackTitle := fallbackTitle d; nameField_display := nameField_display d;
         fallbackMsg :=
           "This fallback modal doesn't create a real user. To enable real sign up/login, enable Netlify Identity in your site (see README).";
         widget := widget d; forSignup := forSignup d |}
  | IdentityLogin _ | IdentityLogout => d
  end.

(** [initAuth] chooses the listeners once; the events then run through
    them. *)
Definition step (netlifyIdentity : bool) (e : Event) (d : Dom) : Dom :=
  if netlifyIdentity then step_identity e d else step_fallback e d.

Definition run (netlifyIdentity : bool) (es : list Event) (d : Dom) : Dom :=
  foldl (λ d e, step netlifyIdentity e d) d es.

Definition sample_dom : Dom :=
  {| loginBtn := "Login"; modal_hidden := true; fallbackTitle := "";
     nameField_display := ""; fallbackMsg := ""; widget := Closed;
     forSignup := false |}.

(** What a run leaves behind, read off the events alone: the mode clicked
    last ([true] for sign-up), whether the click that came last on login,
    sign-up or close was the close ([true] for hidden), whether the form was
    submitted, the text the identity events leave on the login button, and
    the state they and the clicks leave the widget in. *)
Fixpoint last_mode (es : list Event) (before : option bool) : option bool :=
  match es with
  | [] => before
  | ClickLogin :: rest => last_mode rest (Some false)
  | ClickSignup :: rest => last_mode rest (Some true)
  | _ :: rest => last_mode rest before
  end.

Fixpoint last_hidden (es : list Event) (before : bool) : bool :=
  match es with
  | [] => before
  | ClickLogin :: rest | ClickSignup :: rest => last_hidden rest false
  | ClickClose :: rest => last_hidden rest true
  | _ :: rest => last_hidden rest before
  end.

Fixpoint submitted (es : list Event) : bool :=
  match es with
  | [] => false
  | Submit :: _ => true
  | _ :: rest => submitted rest
  end.

Fixpoint last_session (es : list Event) (before : string) : string :=
  match es with
  | [] => before
  | IdentityLogin user :: rest => last_session rest (email user)
  | IdentityLogout :: rest => last_session rest "Login"
  | _ :: rest => last_session rest before
  end.

Fixpoint last_widget (es : list Event) (before : Widget) : Widget :=
  match es with
  | [] => before
  | ClickLogin :: rest => last_widget rest (Open None)
  | ClickSignup :: rest => last_widget rest (Open (Some "signup"))
  | IdentityLogin _ :: rest => last_widget rest Closed
  | _ :: rest => last_widget rest before
  end.

End Auth.

(** ** The page and the function together *)

Module Site.
Import Runtime Script.

(** The event the function receives for a query object of the page: its
    entries arrive as [queryStringParameters]. *)
Definition event_of_query (qs : list (string * string)) : Tmdb.Event :=
  {| Tmdb.queryStringParameters := Some (list_to_map qs) |}.

(** The event with the parameter [k] taken away. *)
Definition without (k : string) (event : Tmdb.Event) : Tmdb.Event :=
  {| Tmdb.queryStringParameters := Some (delete k (Tmdb.query event)) |}.

(** A parameter as the tests of the handler see it: an empty value is no
    value. *)
Definition present (v : option string) : option string :=
  if truthy v then v else None.

(** The parameters the handler looks at. *)
Definition read_parameters : list string := ["type"; "genre"; "sort_by"; "movieId"].

(** How often a byte occurs in a string. *)
Fixpoint count_char (c : ascii) (s : string) : nat :=
  match s with
  | EmptyString => 0%nat
  | String c' rest => ((if Ascii.eqb c' c then 1 else 0) + count_char c rest)%nat
  end.

(** How often the pointer enters in a run. *)
Fixpoint count_enters (es : list Event) : nat :=
  match es with
  | [] => 0%nat
  | MouseEnter :: rest => S (count_enters rest)
  | _ :: rest => count_enters rest
  end.

(** The function deployed behind [/.netlify/functions/tmdb]: the platform
    turns the URL into an event ([parse]) and the envelope into the response,
    whose [ok] is the status being in 200-299 and whose [json()] is the body
    decoded ([decode_movies], [decode_videos]). *)
Section Served.
Variable parse : string → Tmdb.Event.
Variable decode_movies : string → Res (Data Movie).
Variable decode_videos : string → Res (Data Video).
Variable env : gmap string string.
Variable upstream : string → Tmdb.FetchResult.

Definition respond {A} (decode : string → Res A) (url : string) : Fetched A :=
  let e := (Tmdb.handler env upstream (parse url)).1 in
  Replied {| res_ok := (200 <=? Tmdb.statusCode e) && (Tmdb.statusCode e <=? 299);
             res_json := decode (Tmdb.body e) |}.

Definition served : Network :=
  {| fetch_movies := respond decode_movies;
     fetch_videos := respond decode_videos |}.

End Served.

End Site.

(** ** Properties of the request dispatcher *)

Module TmdbSpec.
Import Runtime Tmdb.

Lemma truthy_Some (v : option string) :
  truthy v = true → ∃ s, v = Some s ∧ s ≠ "" ∧ interpolate v = s.
Proof.
  destruct v as [s|]; simpl; [|discriminate].
  destruct (String.eqb_spec s ""); simpl; [discriminate|]. eauto.
Qed.

Lemma truthy_key (env : gmap string string) (apiKey : string) :
  env !! "TMDB_API_KEY" = Some apiKey → apiKey ≠ "" →
  truthy (env !! "TMDB_API_KEY") = true
  ∧ interpolate (env !! "TMDB_API_KEY") = apiKey.
Proof.
  intros -> Hne. simpl. split; [|done].
  by destruct (String.eqb_spec apiKey "").
Qed.

(** With a credential, the handler is its route followed by the fetch. *)
Lemma handler_with_key env fetch event apiKey :
  env !! "TMDB_API_KEY" = Some apiKey → apiKey ≠ "" →
  handler env fetch event =
    match route apiKey (query event) (request_type event) with
    | Return e => (e, [])
    | Target targetUrl =>
        match fetch targetUrl with
        | Rejected message =>
            ({| statusCode := 500; body := error_body message;
                headers := None |}, [targetUrl])
        | Resolved resp =>
            if negb (ok resp) then
              match text resp with
              | Ok t =>
                  ({| statusCode := status resp; body := t;
                      headers := Some [("Content-Type", "application/json")] |},
                   [targetUrl])
              | Throw message =>
                  ({| statusCode := 500; body := error_body message;
                      headers := None |}, [targetUrl])
              end
            else
              match json_body resp with
              | Ok data =>
                  ({| statusCode := 200;
                      headers :=
                        Some [("Content-Type", "application/json");
                              ("Access-Control-Allow-Origin", "*")];
                      body := JSON_stringify data |}, [targetUrl])
              | Throw message =>
                  ({| statusCode := 500; body := error_body message;
                      headers := None |}, [targetUrl])
              end
        end
    end.
Proof.
  intros Hkey Hne. destruct (truthy_key env apiKey Hkey Hne) as [Ht Hi].
  unfold handler. rewrite Ht, Hi. reflexivity.
Qed.

(** The handler has an upstream URL exactly for the valid queries. *)
Lemma valid_query_iff_target apiKey event :
  valid_query event = true ↔ ∃ url, target_url apiKey event = Some url.
Proof.
  unfold valid_query, target_url, route.
  destruct (String.eqb (request_type event) "discover"); simpl;
    [by split; eauto|].
  destruct (String.eqb (request_type event) "videos"); simpl.
  - destruct (truthy (query event !! "movieId")); simpl;
      [by split; eauto|].
    split; [done|]. by intros [? ?].
  - destruct (String.eqb (request_type event) "movie"); simpl.
    + destruct (truthy (query event !! "movieId")); simpl;
        [by split; eauto|].
      split; [done|]. by intros [? ?].
    + split; [done|]. by intros [? ?].
Qed.

(** C3: with the credential configured, for a valid query of any kind
    ([target_url] is defined exactly for those, [valid_query_iff_target])
    whose upstream call answers with a status [S] outside 200-299 and body
    text [B], the handler returns exactly status [S] and body [B], after
    that one upstream call, and the envelope carries no
    Access-Control-Allow-Origin header. *)
Theorem upstream_error_passes_through
    (env : gmap string string) (fetch : string → FetchResult) (event : Event)
    (apiKey url : string) (resp : Response) (B : string) :
  env !! "TMDB_API_KEY" = Some apiKey → apiKey ≠ "" →
  target_url apiKey event = Some url →
  fetch url = Resolved resp →
  ¬ (200 ≤ status resp ≤ 299) →
  text resp = Ok B →
  handler env fetch event =
    ({| statusCode := status resp; body := B;
        headers := Some [("Content-Type", "application/json")] |}, [url])
  ∧ has_header "Access-Control-Allow-Origin" (handler env fetch event).1 = false.
Proof.
  intros Hkey Hne Hurl Hfetch Hstatus Htext.
  assert (Hok : ok resp = false).
  { unfold ok. apply andb_false_iff.
    destruct (Z.leb_spec 200 (status resp)); [right|by left].
    apply Z.leb_gt. lia. }
  assert (Heq : handler env fetch event =
    ({| statusCode := status resp; body := B;
        headers := Some [("Content-Type", "application/json")] |}, [url])).
  { rewrite (handler_with_key _ _ _ _ Hkey Hne).
    unfold target_url in Hurl.
    destruct (route apiKey (query event) (request_type event)); [done|].
    injection Hurl as ->. by rewrite Hfetch, Hok, Htext. }
  split; [exact Heq|]. rewrite Heq. reflexivity.
Qed.

Lemma upstream_error_passes_through_witness :
  handler sample_env failing_upstream
    (sample_event [("type", "videos"); ("movieId", "12345")])
  = ({| statusCode := 404; body := "not found";
        headers := Some [("Content-Type", "application/json")] |},
     ["https://api.themoviedb.org/3/movie/12345/videos?api_key=K"])
  ∧ has_header "Access-Control-Allow-Origin"
      (handler sample_env failing_upstream
         (sample_event [("type", "videos"); ("movieId", "12345")])).1 = false.
Proof.
  apply (upstream_error_passes_through sample_env failing_upstream
           (sample_event [("type", "videos"); ("movieId", "12345")]) "K"
           "https://api.themoviedb.org/3/movie/12345/videos?api_key=K"
           sample_not_found "not found").
  - reflexivity.
  - discriminate.
  - reflexivity.
  - reflexivity.
  - simpl. lia.
  - reflexivity.
Defined.

(** C4, as the code has it: without the credential the handler returns, for
    every event whatever its kind and parameters, status 500 with the body
    [{error: "TMDB_API_KEY not set in environment variables"}], and makes
    no upstream call. *)
Theorem missing_credential_is_500
    (env : gmap string string) (fetch : string → FetchResult) (event : Event) :
  env !! "TMDB_API_KEY" = None →
  handler env fetch event =
    ({| statusCode := 500;
        body := error_body "TMDB_API_KEY not set in environment variables";
        headers := None |}, []).
Proof. intros Hkey. unfold handler. by rewrite Hkey. Qed.

Lemma missing_credential_is_500_witness :
  handler ∅ sample_upstream (sample_event [("type", "movie"); ("movieId", "7")])
  = ({| statusCode := 500;
        body := error_body "TMDB_API_KEY not set in environment variables";
        headers := None |}, []).
Proof.
  apply (missing_credential_is_500 ∅ sample_upstream
           (sample_event [("type", "movie"); ("movieId", "7")])).
  reflexivity.
Defined.

(** The body the specification names is not the body returned. *)
Lemma missing_credential_body_differs :
  (∅ : gmap string string) !! "TMDB_API_KEY" = None
  ∧ statusCode (handler ∅ sample_upstream (sample_event [])).1 = 500
  ∧ body (handler ∅ sample_upstream (sample_event [])).1
    ≠ error_body "credential not configured".
Proof. split; [reflexivity|]. split; [reflexivity|]. vm_compute. discriminate. Qed.

(** C5: with the credential configured, a query of type [videos] or [movie]
    without a [movieId] gets status 400 with body
    [{error: "movieId required"}], and no upstream call is made. *)
Theorem missing_movieId_is_400
    (env : gmap string string) (fetch : string → FetchResult) (event : Event)
    (apiKey : string) :
  env !! "TMDB_API_KEY" = Some apiKey → apiKey ≠ "" →
  query event !! "type" = Some "videos" ∨ query event !! "type" = Some "movie" →
  query event !! "movieId" = None →
  handler env fetch event =
    ({| statusCode := 400; body := error_body "movieId required";
        headers := None |}, []).
Proof.
  intros Hkey Hne Htype Hid.
  rewrite (handler_with_key _ _ _ _ Hkey Hne).
  unfold request_type, route. rewrite Hid.
  by destruct Htype as [-> | ->].
Qed.

Lemma missing_movieId_is_400_witness :
  handler sample_env sample_upstream (sample_event [("type", "movie")])
  = ({| statusCode := 400; body := error_body "movieId required";
        headers := None |}, []).
Proof.
  apply (missing_movieId_is_400 sample_env sample_upstream
           (sample_event [("type", "movie")]) "K").
  - reflexivity.
  - discriminate.
  - right. reflexivity.
  - reflexivity.
Defined.

(** C7, as the code has it: with the credential configured, for a
    discover query the handler requests the discover URL with the
    parameters [api_key], [with_genres] (the genre if present, else empty),
    [sort_by] (the [sort_by] parameter if present and not empty, else
    [popularity.desc]) and [page = 1]; a missing genre is no error.  When
    the upstream call answers 2xx with a JSON body, the envelope has status
    200, that body serialized again, and the headers Content-Type and
    Access-Control-Allow-Origin: *. *)
Theorem discover_synthesizes_params
    (env : gmap string string) (fetch : string → FetchResult) (event : Event)
    (apiKey url : string) (resp : Response) (data : json) :
  env !! "TMDB_API_KEY" = Some apiKey → apiKey ≠ "" →
  request_type event = "discover" →
  url = "https://api.themoviedb.org/3/discover/movie?"
        +:+ URLSearchParams_toString (discover_params apiKey (query event)) →
  fetch url = Resolved resp →
  ok resp = true →
  json_body resp = Ok data →
  discover_params apiKey (query event) =
    [ ("api_key", apiKey);
      ("with_genres", default "" (query event !! "genre"));
      ("sort_by",
        match query event !! "sort_by" with
        | Some sortKey => if decide (sortKey = "") then "popularity.desc" else sortKey
        | None => "popularity.desc"
        end);
      ("page", "1") ]
  ∧ handler env fetch event =
      ({| statusCode := 200;
          headers := Some [("Content-Type", "application/json");
                           ("Access-Control-Allow-Origin", "*")];
          body := JSON_stringify data |}, [url])
  ∧ has_header "Access-Control-Allow-Origin" (handler env fetch event).1 = true.
Proof.
  intros Hkey Hne Htype -> Hfetch Hok Hjson.
  assert (Heq : handler env fetch event =
      ({| statusCode := 200;
          headers := Some [("Content-Type", "application/json");
                           ("Access-Control-Allow-Origin", "*")];
          body := JSON_stringify data |},
       ["https://api.themoviedb.org/3/discover/movie?"
        +:+ URLSearchParams_toString (discover_params apiKey (query event))])).
  { rewrite (handler_with_key _ _ _ _ Hkey Hne).
    unfold route. rewrite Htype. simpl String.eqb. cbv iota.
    by rewrite Hfetch, Hok, Hjson. }
  split; [|split; [exact Heq|by rewrite Heq]].
  unfold discover_params, or_else. repeat f_equal.
  - by destruct (query event !! "genre") as [g|]; [destruct (String.eqb_spec g "")|].
  - destruct (query event !! "sort_by") as [k|]; [|done].
    by destruct (String.eqb_spec k ""), (decide (k = "")).
Qed.

(** The end-to-end example of the specification. *)
Lemma discover_synthesizes_params_witness :
  discover_params "K" (query (sample_event [("type", "discover"); ("genre", "878")]))
  = [ ("api_key", "K"); ("with_genres", "878"); ("sort_by", "popularity.desc");
      ("page", "1") ]
  ∧ handler sample_env sample_upstream
      (sample_event [("type", "discover"); ("genre", "878")])
    = ({| statusCode := 200;
          headers := Some [("Content-Type", "application/json");
                           ("Access-Control-Allow-Origin", "*")];
          body := JSON_stringify sample_page |},
       ["https://api.themoviedb.org/3/discover/movie?api_key=K&with_genres=878&sort_by=popularity.desc&page=1"])
  ∧ has_header "Access-Control-Allow-Origin"
      (handler sample_env sample_upstream
         (sample_event [("type", "discover"); ("genre", "878")])).1 = true.
Proof.
  apply (discover_synthesizes_params sample_env sample_upstream
           (sample_event [("type", "discover"); ("genre", "878")]) "K"
           "https://api.themoviedb.org/3/discover/movie?api_key=K&with_genres=878&sort_by=popularity.desc&page=1"
           {| status := 200; text := Ok (JSON_stringify sample_page);
              json_body := Ok sample_page |} sample_page).
  - reflexivity.
  - discriminate.
  - reflexivity.
  - reflexivity.
  - reflexivity.
  - reflexivity.
  - reflexivity.
Defined.

(** A [sort_by] that is present but empty is replaced by the default: the
    parameters sent are not those of the specification's rule, and neither
    is the URL requested. *)
Lemma empty_sort_by_is_defaulted :
  query (sample_event [("type", "discover"); ("sort_by", "")]) !! "sort_by"
    = Some ""
  ∧ discover_params "K" (query (sample_event [("type", "discover"); ("sort_by", "")]))
    ≠ spec_discover_params "K"
        (query (sample_event [("type", "discover"); ("sort_by", "")]))
  ∧ (handler sample_env sample_upstream
       (sample_event [("type", "discover"); ("sort_by", "")])).2
    = ["https://api.themoviedb.org/3/discover/movie?api_key=K&with_genres=&sort_by=popularity.desc&page=1"].
Proof.
  split; [reflexivity|]. split; [|reflexivity]. vm_compute. discriminate.
Qed.

Lemma request_type_cases (event : Event) :
  (request_type event = "discover"
   ∧ (query event !! "type" = None ∨ query event !! "type" = Some ""))
  ∨ query event !! "type" = Some (request_type event) ∧ request_type event ≠ "".
Proof.
  unfold request_type, or_else.
  destruct (query event !! "type") as [t|]; [|by left; auto].
  destruct (String.eqb_spec t ""); [left; subst; auto | right; auto].
Qed.

(** C9: with the credential configured, an event without a [type] is
    handled exactly as the same event with [type=discover], and the
    discover URL is fetched; and the response 400 [{error: "Unknown type"}]
    is returned exactly when [type] is present, not empty, and none of
    [discover], [videos], [movie]. *)
Theorem missing_type_is_discover
    (env : gmap string string) (fetch : string → FetchResult) (event : Event)
    (apiKey : string) :
  env !! "TMDB_API_KEY" = Some apiKey → apiKey ≠ "" →
  (query event !! "type" = None →
     handler env fetch event = handler env fetch (with_type "discover" event)
     ∧ (handler env fetch event).2 =
         ["https://api.themoviedb.org/3/discover/movie?"
          +:+ URLSearchParams_toString (discover_params apiKey (query event))])
  ∧ (handler env fetch event =
       ({| statusCode := 400; body := error_body "Unknown type";
           headers := None |}, [])
     ↔ ∃ t, query event !! "type" = Some t
            ∧ t ≠ "" ∧ t ≠ "discover" ∧ t ≠ "videos" ∧ t ≠ "movie").
Proof.
  intros Hkey Hne. rewrite !(handler_with_key _ _ _ _ Hkey Hne). split.
  - intros Hnone.
    assert (Ht : request_type event = "discover")
      by (unfold request_type; by rewrite Hnone).
    assert (Ht' : request_type (with_type "discover" event) = "discover")
      by (unfold request_type, with_type, query; simpl; by rewrite lookup_insert_eq).
    rewrite Ht, Ht'. unfold route. simpl String.eqb. cbv iota.
    assert (Hp : discover_params apiKey (query (with_type "discover" event))
                 = discover_params apiKey (query event)).
    { unfold discover_params, with_type, query. simpl.
      by rewrite !lookup_insert_ne. }
    rewrite Hp. split; [done|].
    destruct (fetch _) as [|resp]; [done|].
    by destruct (negb (ok resp)), (text resp), (json_body resp).
  - unfold route.
    destruct (String.eqb_spec (request_type event) "discover") as [Hd|Hd].
    { split.
      - destruct (fetch _) as [|resp]; [done|].
        by destruct (negb (ok resp)), (text resp), (json_body resp).
      - intros (t & Ht & Ht1 & Ht2 & _).
        destruct (request_type_cases event) as [[_ [Hc|Hc]]|[Hc _]]; congruence. }
    destruct (String.eqb_spec (request_type event) "videos") as [Hv|Hv].
    { split.
      - destruct (negb (truthy (query event !! "movieId"))).
        + intros H. vm_compute in H. discriminate.
        + destruct (fetch _) as [|resp]; [done|].
          by destruct (negb (ok resp)), (text resp), (json_body resp).
      - intros (t & Ht & Ht1 & Ht2 & Ht3 & _).
        destruct (request_type_cases event) as [[Hc _]|[Hc _]]; congruence. }
    destruct (String.eqb_spec (request_type event) "movie") as [Hm|Hm].
    { split.
      - destruct (negb (truthy (query event !! "movieId"))).
        + intros H. vm_compute in H. discriminate.
        + destruct (fetch _) as [|resp]; [done|].
          by destruct (negb (ok resp)), (text resp), (json_body resp).
      - intros (t & Ht & Ht1 & Ht2 & Ht3 & Ht4).
        destruct (request_type_cases event) as [[Hc _]|[Hc _]]; congruence. }
    split; [intros _|done].
    destruct (request_type_cases event) as [[Hc _]|[Hc Hc']]; [done|].
    exists (request_type event). auto.
Qed.

Lemma missing_type_is_discover_witness :
  (query (sample_event [("genre", "18")]) !! "type" = None →
     handler sample_env sample_upstream (sample_event [("genre", "18")])
     = handler sample_env sample_upstream
         (with_type "discover" (sample_event [("genre", "18")]))
     ∧ (handler sample_env sample_upstream (sample_event [("genre", "18")])).2 =
         ["https://api.themoviedb.org/3/discover/movie?"
          +:+ URLSearchParams_toString
                (discover_params "K" (query (sample_event [("genre", "18")])))])
  ∧ (handler sample_env sample_upstream (sample_event [("genre", "18")]) =
       ({| statusCode := 400; body := error_body "Unknown type";
           headers := None |}, [])
     ↔ ∃ t, query (sample_event [("genre", "18")]) !! "type" = Some t
            ∧ t ≠ "" ∧ t ≠ "discover" ∧ t ≠ "videos" ∧ t ≠ "movie").
Proof.
  apply (missing_type_is_discover sample_env sample_upstream
           (sample_event [("genre", "18")]) "K").
  - reflexivity.
  - discriminate.
Defined.

Lemma differ_only_in_limit_lookup (qs1 qs2 : gmap string string) (k : string) :
  delete "limit" qs1 = delete "limit" qs2 → k ≠ "limit" → qs1 !! k = qs2 !! k.
Proof.
  intros Heq Hk.
  rewrite <- (lookup_delete_ne qs1 "limit" k), <- (lookup_delete_ne qs2 "limit" k)
    by done.
  by rewrite Heq.
Qed.

(** C10: two events that differ at most in their [limit] parameter get the
    same upstream URL requested and the same envelope; in particular two
    discover requests. *)
Theorem limit_has_no_effect
    (env : gmap string string) (fetch : string → FetchResult) (e1 e2 : Event) :
  delete "limit" (query e1) = delete "limit" (query e2) →
  handler env fetch e1 = handler env fetch e2.
Proof.
  intros Heq.
  assert (Hl : ∀ k, k ≠ "limit" → query e1 !! k = query e2 !! k)
    by (intros; by apply differ_only_in_limit_lookup).
  unfold handler, request_type, route, discover_params.
  by rewrite (Hl "type"), (Hl "genre"), (Hl "sort_by"), (Hl "movieId").
Qed.

Lemma limit_has_no_effect_witness :
  handler sample_env sample_upstream
    (sample_event [("type", "discover"); ("genre", "878"); ("limit", "5")])
  = handler sample_env sample_upstream
      (sample_event [("type", "discover"); ("genre", "878"); ("limit", "50")]).
Proof.
  apply (limit_has_no_effect sample_env sample_upstream
           (sample_event [("type", "discover"); ("genre", "878"); ("limit", "5")])
           (sample_event [("type", "discover"); ("genre", "878"); ("limit", "50")])).
  vm_compute. reflexivity.
Defined.

End TmdbSpec.

(** ** Properties of the browser script *)

Module ScriptSpec.
Import Runtime Script.

(** *** Preview selection *)

Lemma find_Some {A} (p : A → bool) (xs : list A) (x : A) :
  find p xs = Some x
  ↔ ∃ before after, xs = before ++ x :: after ∧ p x = true
                    ∧ Forall (λ y, p y = false) before.
Proof.
  induction xs as [|y xs IH]; simpl.
  - split; [done|]. intros (before & after & Heq & _). by destruct before.
  - destruct (p y) eqn:Hy.
    + split.
      * intros [= ->]. by exists [], xs.
      * intros (before & after & Heq & Hx & Hall).
        destruct before as [|z before]; simplify_eq/=; [done|].
        apply Forall_cons in Hall as [Hz _]. congruence.
    + rewrite IH. split.
      * intros (before & after & -> & Hx & Hall).
        exists (y :: before), after. by repeat split; [|constructor].
      * intros (before & after & Heq & Hx & Hall).
        destruct before as [|z before]; simplify_eq/=; [congruence|].
        apply Forall_cons in Hall as [_ Hall]. eauto.
Qed.

Lemma find_None {A} (p : A → bool) (xs : list A) :
  find p xs = None ↔ Forall (λ y, p y = false) xs.
Proof.
  induction xs as [|y xs IH]; simpl; [by split; [constructor|]|].
  destruct (p y) eqn:Hy.
  - split; [done|]. intros [Hy' _]%Forall_cons. congruence.
  - rewrite IH. split; [by constructor|]. by intros [_ ?]%Forall_cons.
Qed.

(** C6: the selection in the hero and in the hover preview is [find] with
    the predicate of the context: it returns the first element of the list
    whose site is YouTube and whose type is accepted (Trailer or Teaser for
    the hero; Trailer, Teaser or Clip for a card), and nothing, not an
    error, when no element matches.  On the list Vimeo Trailer, YouTube
    Teaser, YouTube Trailer the hero selects the Teaser. *)
Theorem selection_takes_first_match :
  (∀ v, hero_accepts v = true
        ↔ site v = "YouTube" ∧ (type v = "Trailer" ∨ type v = "Teaser"))
  ∧ (∀ v, card_accepts v = true
          ↔ site v = "YouTube"
            ∧ (type v = "Trailer" ∨ type v = "Teaser" ∨ type v = "Clip"))
  ∧ (∀ (accepts : Video → bool) (media : list Video) (v : Video),
       find accepts media = Some v
       ↔ ∃ before after, media = before ++ v :: after ∧ accepts v = true
                         ∧ Forall (λ w, accepts w = false) before)
  ∧ (∀ (accepts : Video → bool) (media : list Video),
       find accepts media = None ↔ Forall (λ w, accepts w = false) media)
  ∧ find hero_accepts sample_videos
    = Some {| site := "YouTube"; type := "Teaser"; key := "y1" |}.
Proof.
  split; [|split; [|split; [|split]]].
  - intros v. unfold hero_accepts.
    rewrite andb_true_iff, orb_true_iff, !String.eqb_eq. tauto.
  - intros v. unfold card_accepts.
    rewrite andb_true_iff, !orb_true_iff, !String.eqb_eq. tauto.
  - intros. apply find_Some.
  - intros. apply find_None.
  - reflexivity.
Qed.

(** *** Rows *)

Lemma set_track_last (f : list TrackChild → list TrackChild)
    (rows : list Row) (row : Row) :
  set_track (List.length rows) f (rows ++ [row])
  = rows ++ [{| row_title := row_title row; track := f (track row) |}].
Proof.
  unfold set_track.
  replace (List.length rows) with (List.length rows + 0)%nat by lia.
  by rewrite alter_app_r.
Qed.

Lemma fill_track (rows : list Row) (t : string) (movies : list Movie) :
  ∀ cards,
    foldl (λ rows' movie,
             set_track (List.length rows)
               (λ t, t ++ [CardNode (createPosterCard movie)]) rows')
          (rows ++ [{| row_title := t; track := cards |}]) movies
    = rows ++ [{| row_title := t;
                  track := cards ++ ((λ movie, CardNode (createPosterCard movie))
                                       <$> movies) |}].
Proof.
  induction movies as [|m movies IH]; intros cards; simpl.
  - by rewrite app_nil_r.
  - rewrite set_track_last. simpl. rewrite IH. by rewrite <- app_assoc.
Qed.

(** One [makeRow]: the row of the bucket is appended, rendered from the
    outcome of its own request, and that request is the only one made. *)
Lemma makeRow_spec (net : Network) (genre : Genre) (p : Page) :
  makeRow net genre p =
    {| rowsContainer :=
         rowsContainer p ++ [rendered_row genre (fetch_movies net (row_url genre))];
       heroTitle := heroTitle p; heroOverview := heroOverview p;
       heroVideoContainer := heroVideoContainer p;
       console :=
         console p ++
         match tmdbFetch_settle (fetch_movies net (row_url genre)) with
         | Ok _ => []
         | Throw _ => ["Failed to load row:"]
         end;
       fetched := fetched p ++ [row_url genre] |}.
Proof.
  unfold makeRow, rendered_row, row_url.
  destruct (tmdbFetch_settle _) as [data|err].
  - by rewrite fill_track, app_nil_r.
  - by rewrite set_track_last.
Qed.

Lemma makeRows_spec (net : Network) (genres : list Genre) :
  ∀ p,
    rowsContainer (foldl (λ p g, makeRow net g p) p genres)
    = rowsContainer p
      ++ ((λ g, rendered_row g (fetch_movies net (row_url g))) <$> genres)
    ∧ fetched (foldl (λ p g, makeRow net g p) p genres)
      = fetched p ++ (row_url <$> genres).
Proof.
  induction genres as [|g genres IH]; intros p; simpl.
  - by rewrite !app_nil_r.
  - destruct (IH (makeRow net g p)) as [-> ->].
    rewrite makeRow_spec. simpl. by rewrite <- !app_assoc.
Qed.

(** One [makeRow], cut at its [await], leaves the row the specification
    asks for and has made the request of its bucket and no other. *)
Lemma row_shown (genre : Genre) (outcome : Fetched (Data Movie)) (p : Page) :
  makeRow_settle genre (List.length (rowsContainer p)) outcome (makeRow_begin genre p)
  = {| rowsContainer := rowsContainer p ++ [spec_row genre outcome];
       heroTitle := heroTitle p; heroOverview := heroOverview p;
       heroVideoContainer := heroVideoContainer p;
       console :=
         console p ++
         match reply_data outcome with
         | Some _ => []
         | None => ["Failed to load row:"]
         end;
       fetched := fetched p ++ [tmdbFetch_url (row_query genre)] |}.
Proof.
  unfold makeRow_settle, makeRow_begin, tmdbFetch_settle, spec_row, reply_data.
  destruct outcome as [message|[[|] [[[movies|]]|err]]]; simpl;
    rewrite ?fill_track, ?set_track_last, ?app_nil_r; reflexivity.
Qed.

(** The synchronous [makeRow] is the cut one with the outcome the network
    gives. *)
Lemma makeRow_cut (net : Network) (genre : Genre) (p : Page) :
  makeRow net genre p
  = makeRow_settle genre (List.length (rowsContainer p))
      (fetch_movies net (row_url genre)) (makeRow_begin genre p).
Proof.
  unfold makeRow, makeRow_settle, makeRow_begin, row_url. simpl.
  by destruct (tmdbFetch_settle _).
Qed.

(** The loop after as many settlements as there are outcomes, for any list
    of genres. *)
Lemma rows_settle_spec (genres : list Genre) :
  ∀ (outcomes : list (Fetched (Data Movie))) (p : Page),
    (List.length outcomes ≤ List.length genres)%nat →
    ∃ s, rows_settle outcomes (load_next p genres) = Some s
         ∧ rowsContainer (loaded s)
           = rowsContainer p ++ zip_with spec_row genres outcomes
             ++ match genres !! List.length outcomes with
                | Some g => [{| row_title := g_name g; track := [] |}]
                | None => []
                end
         ∧ fetched (loaded s)
           = fetched p
             ++ ((λ g, tmdbFetch_url (row_query g))
                   <$> take (S (List.length outcomes)) genres)
         ∧ awaited s
           = (λ g, (g, List.length (rowsContainer p) + List.length outcomes)%nat)
               <$> genres !! List.length outcomes
         ∧ heroTitle (loaded s) = heroTitle p
         ∧ heroOverview (loaded s) = heroOverview p
         ∧ heroVideoContainer (loaded s) = heroVideoContainer p.
Proof.
  induction genres as [|g genres IH]; intros outcomes p Hlen.
  - destruct outcomes; [|simpl in Hlen; lia].
    eexists. split; [done|]. simpl. by rewrite !app_nil_r.
  - destruct outcomes as [|outcome outcomes].
    + eexists. split; [done|]. simpl. rewrite Nat.add_0_r. by repeat split.
    + simpl in Hlen.
      destruct (IH outcomes
                  (makeRow_settle g (List.length (rowsContainer p)) outcome
                     (makeRow_begin g p)))
        as (s & Hrun & Hrows & Hfetched & Hawaited & Ht & Ho & Hc); [lia|].
      exists s. split; [exact Hrun|].
      rewrite row_shown in Hrows, Hfetched, Hawaited, Ht, Ho, Hc. simpl in *.
      rewrite Hrows, Hfetched, Hawaited, length_app, <- !app_assoc. simpl.
      repeat split; try done.
      destruct (genres !! List.length outcomes); simpl; [|done].
      do 2 f_equal. lia.
Qed.

(** The loop of [init], settled with the outcomes the network gives, is
    [init_rows]. *)
Lemma init_rows_is_the_loop (net : Network) (genres : list Genre) :
  ∀ p, rows_settle ((λ g, fetch_movies net (row_url g)) <$> genres)
         (load_next p genres)
       = Some {| loaded := foldl (λ p g, makeRow net g p) p genres;
                 awaited := None; upcoming := [] |}.
Proof.
  induction genres as [|g genres IH]; intros p; [done|].
  cbn [fmap list_fmap rows_settle row_settles load_next awaited upcoming loaded foldl].
  by rewrite IH, makeRow_cut.
Qed.

(** C8, as the code has it: the rows are loaded one after the other.  After
    any number of settlements, whatever their outcomes, the buckets settled
    so far show, in the declared order, each what its own outcome asks for
    (the cards of its items when its reply is ok and decodes, else its own
    message "Failed to load" with its name), so that a failure neither
    changes nor aborts the loading of another bucket; the next bucket has an
    empty row and its request is out, and no later bucket has been
    requested: a bucket is requested when the bucket before it has
    settled. *)
Theorem rows_load_one_by_one (p : Page) (outcomes : list (Fetched (Data Movie))) :
  (List.length outcomes ≤ List.length GENRES)%nat →
  ∃ s, rows_settle outcomes (load_next p GENRES) = Some s
       ∧ rowsContainer (loaded s)
         = rowsContainer p ++ zip_with spec_row GENRES outcomes
           ++ match GENRES !! List.length outcomes with
              | Some g => [{| row_title := g_name g; track := [] |}]
              | None => []
              end
       ∧ fetched (loaded s)
         = fetched p
           ++ take (S (List.length outcomes))
                [ "/.netlify/functions/tmdb?type=discover&genre=878&limit=20";
                  "/.netlify/functions/tmdb?type=discover&genre=528&limit=20";
                  "/.netlify/functions/tmdb?type=discover&genre=18&limit=20";
                  "/.netlify/functions/tmdb?type=discover&genre=27&limit=20";
                  "/.netlify/functions/tmdb?type=discover&genre=35&limit=20" ]
       ∧ awaited s
         = (λ g, (g, List.length (rowsContainer p) + List.length outcomes)%nat)
             <$> GENRES !! List.length outcomes.
Proof.
  intros Hlen.
  destruct (rows_settle_spec GENRES outcomes p Hlen)
    as (s & Hrun & Hrows & Hfetched & Hawaited & _).
  exists s. split; [exact Hrun|]. split; [exact Hrows|]. split; [|exact Hawaited].
  rewrite Hfetched, fmap_take. reflexivity.
Qed.

Lemma rows_load_one_by_one_witness :
  ∃ s, rows_settle [movies_reply;
                    Failed "Failed to fetch"] (load_next empty_page GENRES) = Some s
       ∧ rowsContainer (loaded s)
         = rowsContainer empty_page
           ++ zip_with spec_row GENRES
                [movies_reply;
                 Failed "Failed to fetch"]
           ++ match GENRES !! 2%nat with
              | Some g => [{| row_title := g_name g; track := [] |}]
              | None => []
              end
       ∧ fetched (loaded s)
         = fetched empty_page
           ++ take 3
                [ "/.netlify/functions/tmdb?type=discover&genre=878&limit=20";
                  "/.netlify/functions/tmdb?type=discover&genre=528&limit=20";
                  "/.netlify/functions/tmdb?type=discover&genre=18&limit=20";
                  "/.netlify/functions/tmdb?type=discover&genre=27&limit=20";
                  "/.netlify/functions/tmdb?type=discover&genre=35&limit=20" ]
       ∧ awaited s
         = (λ g, (g, List.length (rowsContainer empty_page) + 2)%nat) <$> GENRES !! 2%nat.
Proof.
  apply (rows_load_one_by_one empty_page
           [movies_reply;
            Failed "Failed to fetch"]).
  simpl. lia.
Defined.

(** The loading of a bucket waits for the outcome of the bucket before it:
    while the request of the first bucket is in flight no other bucket has a
    row or a request, and the second bucket gets both when the failure of
    the first arrives. *)
Lemma next_bucket_waits_for_failure :
  fetched (loaded (load_next empty_page GENRES))
  = ["/.netlify/functions/tmdb?type=discover&genre=878&limit=20"]
  ∧ rowsContainer (loaded (load_next empty_page GENRES))
    = [{| row_title := "AI"; track := [] |}]
  ∧ (λ s, fetched (loaded s))
      <$> row_settles (Failed "Failed to fetch") (load_next empty_page GENRES)
    = Some ["/.netlify/functions/tmdb?type=discover&genre=878&limit=20";
            "/.netlify/functions/tmdb?type=discover&genre=528&limit=20"]
  ∧ (λ s, row_title <$> rowsContainer (loaded s))
      <$> row_settles (Failed "Failed to fetch") (load_next empty_page GENRES)
    = Some ["AI"; "Food"].
Proof. repeat split. Qed.

(** The isolation example of the specification: the second bucket fails,
    the others show their cards. *)
Example middle_bucket_fails :
  rowsContainer (init_rows food_down empty_page)
  = [ {| row_title := "AI"; track := [CardNode (createPosterCard sample_movie)] |};
      {| row_title := "Food";
         track := [HtmlNode (div_style "padding:12px;color:#cfcfcf"
                               "Failed to load Food")] |};
      {| row_title := "Drama"; track := [CardNode (createPosterCard sample_movie)] |};
      {| row_title := "Horror"; track := [CardNode (createPosterCard sample_movie)] |};
      {| row_title := "Comedy"; track := [CardNode (createPosterCard sample_movie)] |} ].
Proof. reflexivity. Qed.

(** *** Hover preview *)

Lemma filter_out_only (handle : positive) :
  filter (λ h, h ≠ handle) [handle] = [].
Proof. rewrite filter_cons, filter_nil. by destruct (decide (handle ≠ handle)). Qed.

(** While no timeout is armed and the pointer does not enter, no timeout
    can expire, so nothing is requested. *)
Lemma quiet_until_enter (later : list Event) :
  ∀ c c', timers c = [] → MouseEnter ∉ later → run later c = Some c' →
          requests c' = requests c ∧ timers c' = [].
Proof.
  induction later as [|e later IH]; intros c c' Htimers Hnot; simpl.
  - by intros [= <-].
  - apply not_elem_of_cons in Hnot as [He Hnot].
    destruct e as [| |handle|frame outcome]; simpl.
    + done.
    + intros Hrun. apply IH in Hrun as [-> ->]; [done| |done].
      simpl. rewrite Htimers. by destruct (previewTimer c).
    + rewrite Htimers, bool_decide_eq_false_2; [done|]. apply not_elem_of_nil.
    + destruct (bool_decide _); [|done].
      intros Hrun. by apply IH in Hrun as [-> ->].
Qed.

(** In a run where enter and leave alternate, a card is idle whenever the
    pointer is outside and in a hover whenever it is inside, wherever the
    timeouts expire and the requests settle in between. *)
Lemma alternating_run_settled (es : list Event) :
  ∀ inside c c', alternates inside es = true → settled inside c →
                 run es c = Some c' → settled (pointer_after inside es) c'.
Proof.
  induction es as [|e es IH]; intros inside c c' Halt Hinv; simpl.
  - by intros [= <-].
  - destruct e as [| |handle|frame outcome]; simpl in Halt |- *.
    + apply andb_true_iff in Halt as [Hout Halt].
      destruct inside; [done|]. destruct Hinv as (_ & Htimers & Hmounted).
      apply IH; [done|]. exists (next_handle c). split; [done|]. left.
      simpl. by rewrite Htimers.
    + apply andb_true_iff in Halt as [Hin Halt].
      destruct inside; [|done]. destruct Hinv as (h & Hheld & Hcase).
      apply IH; [done|]. split; [done|]. simpl. rewrite Hheld.
      destruct Hcase as [[-> ->]|[-> Hlen]].
      * by rewrite filter_out_only.
      * split; [done|]. by destruct (mounted c) as [|f [|g rest]]; simpl in *; [| |lia].
    + destruct (bool_decide (handle ∈ timers c)) eqn:Harmed; [|done].
      apply bool_decide_eq_true in Harmed.
      destruct inside.
      * destruct Hinv as (h & Hheld & [[Htimers Hmounted]|[Htimers _]]).
        -- rewrite Htimers in Harmed. apply list_elem_of_singleton in Harmed as ->.
           apply IH; [done|]. exists h. split; [done|]. right. simpl.
           rewrite Htimers, Hmounted, filter_out_only. split; [done|]. simpl. lia.
        -- rewrite Htimers in Harmed. by apply elem_of_nil in Harmed.
      * destruct Hinv as (_ & Htimers & _).
        rewrite Htimers in Harmed. by apply elem_of_nil in Harmed.
    + destruct (bool_decide (frame ∈ inflight c)); [|done].
      apply IH; [done|]. by destruct inside.
Qed.

(** Every hover of a card created by [createPosterCard] starts from an idle
    card: after any alternating run that leaves the pointer outside, the
    card is idle. *)
Lemma idle_when_pointer_outside (movie : Movie) (es : list Event) (c : Card) :
  alternates false es = true → pointer_after false es = false →
  run es (createPosterCard movie) = Some c → idle c.
Proof.
  intros Halt Hout Hrun.
  pose proof (alternating_run_settled es false (createPosterCard movie) c Halt) as H.
  rewrite Hout in H. by apply H.
Qed.

(** C1: for every card, from a state where nothing of a hover is left: if
    the pointer leaves after it entered and before the timeout expires, the
    timeout is cancelled and cannot expire any more, and no video list is
    requested, neither then nor later as long as the pointer does not enter
    again; if the pointer leaves after the timeout expired, while the
    request is in flight, then once the request settles, whatever its
    outcome, no preview frame is in the card and the card is idle: the frame
    that receives the result is the one already removed. *)
Theorem leave_wins_over_preview (c : Card) (outcome : Fetched (Data Video)) :
  idle c →
  (∃ c2, run [MouseEnter; MouseLeave] c = Some c2
         ∧ step (TimerFires (next_handle c)) c2 = None
         ∧ idle c2
         ∧ requests c2 = requests c
         ∧ ∀ later c3, MouseEnter ∉ later → run later c2 = Some c3 →
                       requests c3 = requests c)
  ∧ (∃ c3 c4,
       run [MouseEnter; TimerFires (next_handle c); MouseLeave] c = Some c3
       ∧ requests c3 = requests c ++ [tmdbFetch_url (videos_query (movie c))]
       ∧ List.length (frames c) ∈ inflight c3
       ∧ step (FetchSettles (List.length (frames c)) outcome) c3 = Some c4
       ∧ mounted c4 = []
       ∧ idle c4
       ∧ preview_state c4 = Idle
       ∧ requests c4 = requests c3).
Proof.
  intros (Htimer & Htimers & Hmounted). split.
  - exists (mouseleave (mouseenter c)).
    assert (Hcleared : timers (mouseleave (mouseenter c)) = []).
    { simpl. rewrite Htimers. simpl. apply filter_out_only. }
    split; [done|]. split; [|split; [|split; [done|]]].
    + simpl. rewrite Htimers. simpl. rewrite filter_out_only.
      rewrite bool_decide_eq_false_2; [done|]. apply not_elem_of_nil.
    + split; [done|]. split; [exact Hcleared|]. simpl. by rewrite Hmounted.
    + intros later c3 Hnot Hrun.
      by destruct (quiet_until_enter later _ _ Hcleared Hnot Hrun) as [-> _].
  - assert (Harmed : bool_decide (next_handle c ∈ timers (mouseenter c)) = true).
    { apply bool_decide_eq_true_2. simpl. rewrite Htimers. apply list_elem_of_here. }
    assert (Hflight : List.length (frames c)
                      ∈ inflight (mouseleave (timer_fires (next_handle c) (mouseenter c)))).
    { simpl. apply elem_of_app. right. apply list_elem_of_here. }
    exists (mouseleave (timer_fires (next_handle c) (mouseenter c))).
    exists (preview_settle (List.length (frames c)) outcome
              (mouseleave (timer_fires (next_handle c) (mouseenter c)))).
    split; [by cbn [run step]; rewrite Harmed|]. split; [done|].
    split; [exact Hflight|].
    split; [by cbn [step]; rewrite bool_decide_eq_true_2|].
    assert (Hgone : mounted (mouseleave (timer_fires (next_handle c) (mouseenter c))) = []).
    { simpl. by rewrite Hmounted. }
    assert (Hnone : timers (mouseleave (timer_fires (next_handle c) (mouseenter c))) = []).
    { simpl. rewrite Htimers. simpl. rewrite filter_out_only. done. }
    split; [exact Hgone|]. split; [by repeat split|]. split; [|done].
    unfold preview_state. simpl. by rewrite Hmounted.
Qed.

Lemma leave_wins_over_preview_witness :
  (∃ c2, run [MouseEnter; MouseLeave] (createPosterCard sample_movie) = Some c2
         ∧ step (TimerFires (next_handle (createPosterCard sample_movie))) c2 = None
         ∧ idle c2
         ∧ requests c2 = requests (createPosterCard sample_movie)
         ∧ ∀ later c3, MouseEnter ∉ later → run later c2 = Some c3 →
                       requests c3 = requests (createPosterCard sample_movie))
  ∧ (∃ c3 c4,
       run [MouseEnter; TimerFires (next_handle (createPosterCard sample_movie));
            MouseLeave] (createPosterCard sample_movie) = Some c3
       ∧ requests c3
         = requests (createPosterCard sample_movie)
           ++ [tmdbFetch_url (videos_query (movie (createPosterCard sample_movie)))]
       ∧ List.length (frames (createPosterCard sample_movie)) ∈ inflight c3
       ∧ step (FetchSettles (List.length (frames (createPosterCard sample_movie)))
                 sample_reply) c3 = Some c4
       ∧ mounted c4 = []
       ∧ idle c4
       ∧ preview_state c4 = Idle
       ∧ requests c4 = requests c3).
Proof.
  apply (leave_wins_over_preview (createPosterCard sample_movie) sample_reply).
  unfold idle. simpl. repeat split; reflexivity.
Defined.

(** The second scenario run on a fresh card: the iframe ends up in frame 0,
    which is no longer in the card. *)
Example late_result_lands_in_removed_frame :
  ∃ c, run [MouseEnter; TimerFires 1%positive; MouseLeave;
            FetchSettles 0%nat sample_reply] (createPosterCard sample_movie)
       = Some c
       ∧ frames c
         = [Iframe (YT_EMBED "y1" "autoplay=1&mute=1&controls=0&loop=1&playlist=y1")]
       ∧ mounted c = []
       ∧ requests c = ["/.netlify/functions/tmdb?type=videos&movieId=7"].
Proof. eexists. split; [reflexivity|]. repeat split. Qed.

(** *** Hero *)

(** The synchronous part of [setHero]: title and overview are on the page
    when the request is made, and nothing else changed yet. *)
Lemma setHero_begin_spec (movie : Movie) (p : Page) :
  heroTitle (setHero_begin movie p)
  = or_else (or_value (title movie) (name movie)) "Featured"
  ∧ heroOverview (setHero_begin movie p) = or_else (overview movie) ""
  ∧ fetched (setHero_begin movie p)
    = fetched p ++ [tmdbFetch_url (videos_query movie)]
  ∧ heroVideoContainer (setHero_begin movie p) = heroVideoContainer p.
Proof. done. Qed.

(** No accepted video: the container holds the poster fallback alone,
    built from the backdrop, else the poster, else nothing. *)
Lemma setHero_no_match (net : Network) (movie : Movie) (p : Page) data :
  tmdbFetch_settle (fetch_videos net (tmdbFetch_url (videos_query movie))) = Ok data →
  find hero_accepts (results_or_empty data) = None →
  heroVideoContainer (setHero net movie p) = [HeroPoster (hero_background movie)].
Proof. intros Hok Hnone. unfold setHero, setHero_settle. by rewrite Hok, Hnone. Qed.

(** A failed request: the error is logged and the container is left as it
    was. *)
Lemma setHero_failure (net : Network) (movie : Movie) (p : Page) err :
  tmdbFetch_settle (fetch_videos net (tmdbFetch_url (videos_query movie))) = Throw err →
  heroVideoContainer (setHero net movie p) = heroVideoContainer p
  ∧ console (setHero net movie p) = console p ++ ["Hero video fetch failed"].
Proof. intros Herr. unfold setHero, setHero_settle. by rewrite Herr. Qed.

(** C2, at the failing input: for a movie with a backdrop and a poster on an
    empty page, the title and the overview are shown, and when the video
    list has no match the backdrop fallback is mounted; but when the request
    fails the hero container stays empty: no fallback is mounted, the error
    is only logged. *)
Theorem hero_failure_mounts_nothing :
  heroTitle (setHero videos_down sample_movie empty_page) = "X"
  ∧ heroOverview (setHero videos_down sample_movie empty_page) = "About X"
  ∧ heroVideoContainer (setHero videos_empty sample_movie empty_page)
    = [HeroPoster "url(https://image.tmdb.org/t/p/w500/b.jpg)"]
  ∧ tmdbFetch_settle
      (fetch_videos videos_down (tmdbFetch_url (videos_query sample_movie)))
    = Throw "TMDb function error"
  ∧ heroVideoContainer (setHero videos_down sample_movie empty_page) = []
  ∧ console (setHero videos_down sample_movie empty_page)
    = ["Hero video fetch failed"].
Proof. repeat split. Qed.

End ScriptSpec.

(** ** Further properties of the request dispatcher *)

Module TmdbMore.
Import Runtime Tmdb Site.

Lemma handler_without_key env fetch event :
  truthy (env !! "TMDB_API_KEY") = false →
  handler env fetch event =
    ({| statusCode := 500;
        body := error_body "TMDB_API_KEY not set in environment variables";
        headers := None |}, []).
Proof. intros Hkey. unfold handler. by rewrite Hkey. Qed.

Lemma key_cases (env : gmap string string) :
  truthy (env !! "TMDB_API_KEY") = false
  ∨ ∃ apiKey, env !! "TMDB_API_KEY" = Some apiKey ∧ apiKey ≠ ""
              ∧ truthy (env !! "TMDB_API_KEY") = true.
Proof.
  destruct (env !! "TMDB_API_KEY") as [k|]; [|by left].
  simpl. destruct (String.eqb_spec k ""); [by left|right; eauto].
Qed.

(** With a credential, the upstream calls are the target URL, if any. *)
Lemma handler_calls env fetch event apiKey :
  env !! "TMDB_API_KEY" = Some apiKey → apiKey ≠ "" →
  (handler env fetch event).2 =
    match target_url apiKey event with
    | Some url => [url]
    | None => []
    end.
Proof.
  intros Hkey Hne. rewrite (TmdbSpec.handler_with_key _ _ _ _ Hkey Hne).
  unfold target_url. destruct (route _ _ _) as [e|url]; [done|].
  destruct (fetch url) as [|resp]; [done|].
  by destruct (negb (ok resp)), (text resp), (json_body resp).
Qed.

(** X1: with the credential configured and a valid query, anything thrown
    inside the [try] block (the upstream [fetch] rejecting, or reading the
    body of the response as text or as JSON failing) ends in status 500 with
    the body [{error: message}] and no headers, after the one upstream
    call. *)
Theorem exceptions_become_500
    (env : gmap string string) (fetch : string → FetchResult) (event : Event)
    (apiKey url message : string) :
  env !! "TMDB_API_KEY" = Some apiKey → apiKey ≠ "" →
  target_url apiKey event = Some url →
  (fetch url = Rejected message
   ∨ (∃ resp, fetch url = Resolved resp ∧ ok resp = false
              ∧ text resp = Throw message)
   ∨ (∃ resp, fetch url = Resolved resp ∧ ok resp = true
              ∧ json_body resp = Throw message)) →
  handler env fetch event =
    ({| statusCode := 500; body := error_body message; headers := None |}, [url]).
Proof.
  intros Hkey Hne Hurl Hthrown.
  rewrite (TmdbSpec.handler_with_key _ _ _ _ Hkey Hne).
  unfold target_url in Hurl.
  destruct (route _ _ _) as [e|u]; [done|]. injection Hurl as ->.
  destruct Hthrown as [-> | [(resp & -> & Hok & Hthrow) | (resp & -> & Hok & Hthrow)]].
  - done.
  - by rewrite Hok, Hthrow.
  - by rewrite Hok, Hthrow.
Qed.

Lemma exceptions_become_500_witness :
  handler sample_env (λ _, Rejected "fetch failed")
    (sample_event [("type", "movie"); ("movieId", "7")])
  = ({| statusCode := 500; body := error_body "fetch failed"; headers := None |},
     ["https://api.themoviedb.org/3/movie/7?api_key=K"]).
Proof.
  apply (exceptions_become_500 sample_env (λ _, Rejected "fetch failed")
           (sample_event [("type", "movie"); ("movieId", "7")]) "K"
           "https://api.themoviedb.org/3/movie/7?api_key=K" "fetch failed").
  - reflexivity.
  - discriminate.
  - reflexivity.
  - left. reflexivity.
Defined.

(** X2: whatever the environment, the upstream and the event, the handler
    makes at most one upstream call, and it makes none exactly when the
    credential is missing or empty or the query is not valid. *)
Theorem at_most_one_upstream_call
    (env : gmap string string) (fetch : string → FetchResult) (event : Event) :
  (List.length (handler env fetch event).2 ≤ 1)%nat
  ∧ ((handler env fetch event).2 = []
     ↔ truthy (env !! "TMDB_API_KEY") = false ∨ valid_query event = false).
Proof.
  destruct (key_cases env) as [Hno|(apiKey & Hkey & Hne & Hyes)].
  - rewrite (handler_without_key _ _ _ Hno). simpl. split; [lia|]. by split; [left|].
  - rewrite (handler_calls _ _ _ _ Hkey Hne), Hyes.
    pose proof (TmdbSpec.valid_query_iff_target apiKey event) as Hvalid.
    destruct (target_url apiKey event) as [url|]; simpl.
    + split; [lia|]. split; [done|]. intros [?|Hinv]; [done|].
      destruct Hvalid as [_ Hvalid]. rewrite Hvalid in Hinv; [done|eauto].
    + split; [lia|]. split; [|done]. intros _. right.
      destruct (valid_query event); [|done].
      destruct Hvalid as [Hvalid _]. by destruct Hvalid as [? ?].
Qed.

(** X3: the envelope carries the Access-Control-Allow-Origin header exactly
    when the credential is configured, the query is valid, the upstream
    answered 2xx and its body decoded as JSON; the envelope is then status
    200 with that body serialized. *)
Theorem cors_header_only_on_success
    (env : gmap string string) (fetch : string → FetchResult) (event : Event) :
  has_header "Access-Control-Allow-Origin" (handler env fetch event).1 = true
  ↔ ∃ apiKey url resp data,
      env !! "TMDB_API_KEY" = Some apiKey ∧ apiKey ≠ ""
      ∧ target_url apiKey event = Some url
      ∧ fetch url = Resolved resp ∧ ok resp = true ∧ json_body resp = Ok data
      ∧ statusCode (handler env fetch event).1 = 200
      ∧ body (handler env fetch event).1 = JSON_stringify data.
Proof.
  destruct (key_cases env) as [Hno|(apiKey & Hkey & Hne & _)].
  - rewrite (handler_without_key _ _ _ Hno). split; [done|].
    intros (k & _ & _ & _ & Hk & Hkne & _). rewrite Hk in Hno. simpl in Hno.
    by destruct (String.eqb_spec k "").
  - rewrite (TmdbSpec.handler_with_key _ _ _ _ Hkey Hne). unfold target_url.
    split.
    + destruct (route _ _ _) as [e|url] eqn:Hroute.
      { unfold route in Hroute.
        repeat (destruct (String.eqb _ _) in Hroute);
          repeat (destruct (negb _) in Hroute); by simplify_eq. }
      destruct (fetch url) as [|resp] eqn:Hfetch; [done|].
      destruct (ok resp) eqn:Hok; simpl.
      * destruct (json_body resp) as [data|] eqn:Hjson; [|done].
        intros _. exists apiKey, url, resp, data. by rewrite Hroute.
      * by destruct (text resp).
    + intros (k & url & resp & data & Hk & _ & Hurl & Hfetch & Hok & Hjson & _).
      assert (k = apiKey) as -> by congruence.
      destruct (route _ _ _) as [e|u]; [done|]. injection Hurl as ->.
      by rewrite Hfetch, Hok, Hjson.
Qed.

(** X4: the status of every envelope is 200, 400 or 500, or else the status
    of an upstream response that was not 2xx. *)
Theorem status_is_local_or_upstream
    (env : gmap string string) (fetch : string → FetchResult) (event : Event) :
  statusCode (handler env fetch event).1 ∈ [200; 400; 500]
  ∨ ∃ url resp, url ∈ (handler env fetch event).2 ∧ fetch url = Resolved resp
                ∧ ok resp = false
                ∧ statusCode (handler env fetch event).1 = status resp.
Proof.
  destruct (key_cases env) as [Hno|(apiKey & Hkey & Hne & _)].
  - rewrite (handler_without_key _ _ _ Hno). left. set_solver.
  - rewrite (TmdbSpec.handler_with_key _ _ _ _ Hkey Hne).
    destruct (route _ _ _) as [e|url] eqn:Hroute.
    { left. unfold route in Hroute.
      repeat (destruct (String.eqb _ _) in Hroute);
        repeat (destruct (negb _) in Hroute); simplify_eq; set_solver. }
    destruct (fetch url) as [|resp] eqn:Hfetch; [left; set_solver|].
    destruct (ok resp) eqn:Hok; simpl.
    + left. destruct (json_body resp); set_solver.
    + destruct (text resp); [|left; set_solver].
      right. exists url, resp. simpl. repeat split; [set_solver|done..].
Qed.

Lemma or_else_present (v : option string) (d : string) :
  or_else v d = or_else (present v) d.
Proof.
  destruct v as [x|]; [|done]. unfold present. simpl.
  destruct (String.eqb x "") eqn:Hx; simpl; by rewrite ?Hx.
Qed.

Lemma present_cases (v : option string) :
  (present v = None ∧ truthy v = false)
  ∨ (present v = v ∧ truthy v = true).
Proof.
  destruct v as [x|]; [|by left]. unfold present. simpl.
  destruct (String.eqb x ""); simpl; [by left|by right].
Qed.

(** The route depends on the parameters only through the four that are
    read, and on those only up to emptiness. *)
Lemma route_ext (apiKey type : string) (q1 q2 : gmap string string) :
  (∀ k, k ∈ read_parameters → present (q1 !! k) = present (q2 !! k)) →
  route apiKey q1 type = route apiKey q2 type.
Proof.
  intros Hsame.
  assert (Hg : present (q1 !! "genre") = present (q2 !! "genre"))
    by (apply Hsame; set_solver).
  assert (Hs : present (q1 !! "sort_by") = present (q2 !! "sort_by"))
    by (apply Hsame; set_solver).
  assert (Hm : present (q1 !! "movieId") = present (q2 !! "movieId"))
    by (apply Hsame; set_solver).
  unfold route, discover_params.
  rewrite (or_else_present (q1 !! "genre")), (or_else_present (q1 !! "sort_by")), Hg, Hs.
  rewrite <- !or_else_present.
  destruct (present_cases (q1 !! "movieId")) as [[Hp1 Ht1]|[Hp1 Ht1]],
           (present_cases (q2 !! "movieId")) as [[Hp2 Ht2]|[Hp2 Ht2]].
  - by rewrite Ht1, Ht2.
  - rewrite Hm, Hp2 in Hp1. rewrite Hp1 in Ht2. done.
  - rewrite <- Hm, Hp1 in Hp2. rewrite Hp2 in Ht1. done.
  - rewrite Hp1, Hp2 in Hm. by rewrite Hm.
Qed.

Lemma handler_ext (env : gmap string string) (fetch : string → FetchResult)
    (e1 e2 : Event) :
  (∀ k, k ∈ read_parameters → present (query e1 !! k) = present (query e2 !! k)) →
  handler env fetch e1 = handler env fetch e2.
Proof.
  intros Hsame. unfold handler, request_type.
  rewrite (route_ext _ _ (query e1) (query e2) Hsame).
  rewrite (or_else_present (query e1 !! "type")), (Hsame "type"), <- or_else_present;
    [done|set_solver].
Qed.

(** X5: a parameter with an empty value is indistinguishable from a missing
    one: taking it away changes neither the envelope nor the upstream
    call. *)
Theorem empty_parameter_is_absent
    (env : gmap string string) (fetch : string → FetchResult) (event : Event)
    (k : string) :
  query event !! k = Some "" →
  handler env fetch (without k event) = handler env fetch event.
Proof.
  intros Hempty. apply handler_ext. intros k' _.
  unfold without, query at 1. simpl.
  destruct (decide (k = k')) as [<-|Hne].
  - by rewrite lookup_delete_eq, Hempty.
  - by rewrite lookup_delete_ne.
Qed.

Lemma empty_parameter_is_absent_witness :
  handler sample_env sample_upstream
    (without "movieId" (sample_event [("type", "videos"); ("movieId", "")]))
  = handler sample_env sample_upstream
      (sample_event [("type", "videos"); ("movieId", "")]).
Proof.
  apply (empty_parameter_is_absent sample_env sample_upstream
           (sample_event [("type", "videos"); ("movieId", "")]) "movieId").
  reflexivity.
Defined.

(** X6: the handler reads four parameters, [type], [genre], [sort_by] and
    [movieId]: two events that agree on these get the same envelope and the
    same upstream call, whatever else they carry. *)
Theorem only_read_parameters_matter
    (env : gmap string string) (fetch : string → FetchResult) (e1 e2 : Event) :
  (∀ k, k ∈ read_parameters → query e1 !! k = query e2 !! k) →
  handler env fetch e1 = handler env fetch e2.
Proof. intros Hsame. apply handler_ext. intros k Hk. by rewrite (Hsame k Hk). Qed.

Lemma only_read_parameters_matter_witness :
  handler sample_env sample_upstream
    (sample_event [("type", "discover"); ("genre", "18"); ("page", "9");
                   ("api_key", "other")])
  = handler sample_env sample_upstream
      (sample_event [("type", "discover"); ("genre", "18"); ("limit", "3")]).
Proof.
  apply (only_read_parameters_matter sample_env sample_upstream
           (sample_event [("type", "discover"); ("genre", "18"); ("page", "9");
                          ("api_key", "other")])
           (sample_event [("type", "discover"); ("genre", "18"); ("limit", "3")])).
  intros k Hk. unfold read_parameters in Hk.
  repeat (apply elem_of_cons in Hk as [->|Hk]; [vm_compute; reflexivity|]).
  by apply elem_of_nil in Hk.
Defined.

Lemma string_app_cons (x : ascii) (a b : string) :
  String x a +:+ b = String x (a +:+ b).
Proof. reflexivity. Qed.

Lemma string_app_assoc (a b c : string) : (a +:+ b) +:+ c = a +:+ (b +:+ c).
Proof.
  induction a as [|x a IH]; [done|]. by rewrite !string_app_cons, IH.
Qed.

Lemma string_app_nonempty (a b : string) : b ≠ "" → a +:+ b ≠ "".
Proof. by destruct a. Qed.

Lemma truthy_nonempty (x : string) : x ≠ "" → truthy (Some x) = true.
Proof. intros Hx. simpl. by destruct (String.eqb_spec x ""). Qed.

Lemma kind_and_id_lookup (kind id : string) :
  query (event_of_query [("type", kind); ("movieId", id)]) !! "type" = Some kind
  ∧ query (event_of_query [("type", kind); ("movieId", id)]) !! "movieId" = Some id.
Proof.
  unfold query, event_of_query. simpl. split; [apply lookup_insert_eq|].
  rewrite lookup_insert_ne by done. apply lookup_insert_eq.
Qed.

Lemma target_of_videos (apiKey id : string) :
  id ≠ "" →
  target_url apiKey (event_of_query [("type", "videos"); ("movieId", id)])
  = Some ("https://api.themoviedb.org/3/movie/" +:+ id +:+ "/videos?api_key="
          +:+ apiKey).
Proof.
  intros Hid. destruct (kind_and_id_lookup "videos" id) as [Hkind Hmovie].
  unfold target_url, request_type. rewrite Hkind. unfold route.
  rewrite Hmovie, (truthy_nonempty _ Hid). reflexivity.
Qed.

Lemma target_of_movie (apiKey id : string) :
  id ≠ "" →
  target_url apiKey (event_of_query [("type", "movie"); ("movieId", id)])
  = Some ("https://api.themoviedb.org/3/movie/" +:+ id +:+ "?api_key=" +:+ apiKey).
Proof.
  intros Hid. destruct (kind_and_id_lookup "movie" id) as [Hkind Hmovie].
  unfold target_url, request_type. rewrite Hkind. unfold route.
  rewrite Hmovie, (truthy_nonempty _ Hid). reflexivity.
Qed.

(** X7: the [movieId] goes into the path as it is, neither checked nor
    encoded: a [movie] query whose [movieId] is [id/videos] is sent to the
    very URL of the [videos] query for [id]. *)
Theorem movieId_is_not_encoded (apiKey id : string) :
  id ≠ "" →
  target_url apiKey (event_of_query [("type", "movie"); ("movieId", id +:+ "/videos")])
  = target_url apiKey (event_of_query [("type", "videos"); ("movieId", id)])
  ∧ target_url apiKey (event_of_query [("type", "videos"); ("movieId", id)])
    = Some ("https://api.themoviedb.org/3/movie/" +:+ id +:+ "/videos?api_key="
            +:+ apiKey).
Proof.
  intros Hid.
  assert (Hlong : id +:+ "/videos" ≠ "") by by apply string_app_nonempty.
  rewrite (target_of_movie _ _ Hlong), (target_of_videos _ _ Hid).
  split; [|done]. do 2 f_equal. by rewrite string_app_assoc.
Qed.

Lemma movieId_is_not_encoded_witness :
  target_url "K" (event_of_query [("type", "movie"); ("movieId", "550" +:+ "/videos")])
  = target_url "K" (event_of_query [("type", "videos"); ("movieId", "550")])
  ∧ target_url "K" (event_of_query [("type", "videos"); ("movieId", "550")])
    = Some ("https://api.themoviedb.org/3/movie/" +:+ "550" +:+ "/videos?api_key="
            +:+ "K").
Proof. apply (movieId_is_not_encoded "K" "550"). discriminate. Defined.

Lemma count_char_app (c : ascii) (a b : string) :
  count_char c (a +:+ b) = (count_char c a + count_char c b)%nat.
Proof.
  induction a as [|x a IH]; [done|].
  rewrite string_app_cons. cbn [count_char]. rewrite IH. lia.
Qed.

Lemma form_encode_byte_no_separator (c : ascii) :
  count_char "&" (form_encode_byte c) = 0%nat
  ∧ count_char "=" (form_encode_byte c) = 0%nat.
Proof. by destruct c as [[] [] [] [] [] [] [] []]. Qed.

Lemma form_encode_no_separator (s : string) :
  count_char "&" (form_encode s) = 0%nat ∧ count_char "=" (form_encode s) = 0%nat.
Proof.
  induction s as [|c s [IH1 IH2]]; [done|].
  cbn [form_encode]. rewrite !count_char_app, IH1, IH2.
  by destruct (form_encode_byte_no_separator c) as [-> ->].
Qed.

(** X8: whatever the credential and the parameters of a discover query
    contain, the query string sent upstream has exactly three [&] and four
    [=]: the values are percent-encoded and cannot add or split
    parameters. *)
Theorem discover_values_are_encoded (apiKey : string) (qs : gmap string string) :
  count_char "&" (URLSearchParams_toString (discover_params apiKey qs)) = 3%nat
  ∧ count_char "=" (URLSearchParams_toString (discover_params apiKey qs)) = 4%nat.
Proof.
  unfold discover_params. cbn [URLSearchParams_toString].
  rewrite !count_char_app.
  repeat match goal with
         | |- context [count_char "&" (form_encode ?x)] =>
             rewrite (proj1 (form_encode_no_separator x))
         | |- context [count_char "=" (form_encode ?x)] =>
             rewrite (proj2 (form_encode_no_separator x))
         end.
  done.
Qed.

End TmdbMore.

(** ** Further properties of the hover preview *)

Module PreviewMore.
Import Runtime Script Site.

(** X9: leaving is safe at any moment and idempotent: whether the pointer
    was over the card or not, the card is idle after [mouseleave], a second
    [mouseleave] changes nothing, and on a card just created [mouseleave]
    changes nothing at all. *)
Theorem leave_is_idempotent (inside : bool) (c : Card) :
  settled inside c →
  idle (mouseleave c)
  ∧ mouseleave (mouseleave c) = mouseleave c
  ∧ mouseleave (createPosterCard (movie c)) = createPosterCard (movie c).
Proof.
  intros Hinv.
  assert (Hidle : idle (mouseleave c)).
  { destruct inside.
    - apply (ScriptSpec.alternating_run_settled [MouseLeave] true c); done.
    - destruct Hinv as (Hheld & Htimers & Hmounted).
      split; [done|]. simpl. by rewrite Hheld, Htimers, Hmounted. }
  split; [exact Hidle|]. split; [|done].
  destruct Hidle as (_ & _ & Hmounted). simpl in Hmounted.
  unfold mouseleave. simpl. by rewrite Hmounted.
Qed.

Lemma leave_is_idempotent_witness :
  idle (mouseleave (mouseenter (createPosterCard sample_movie)))
  ∧ mouseleave (mouseleave (mouseenter (createPosterCard sample_movie)))
    = mouseleave (mouseenter (createPosterCard sample_movie))
  ∧ mouseleave (createPosterCard (movie (mouseenter (createPosterCard sample_movie))))
    = createPosterCard (movie (mouseenter (createPosterCard sample_movie))).
Proof.
  apply (leave_is_idempotent true (mouseenter (createPosterCard sample_movie))).
  exists 1%positive. split; [reflexivity|]. left. split; reflexivity.
Defined.

(** Every request uses up an armed timeout, and only [mouseenter] arms
    one. *)
Lemma requests_bounded (es : list Event) :
  ∀ c c', run es c = Some c' →
          (List.length (requests c') + List.length (timers c')
           ≤ List.length (requests c) + List.length (timers c) + count_enters es)%nat.
Proof.
  induction es as [|e es IH]; intros c c'; simpl.
  - intros [= <-]. lia.
  - destruct e as [| |handle|frame outcome]; simpl.
    + intros Hrun. apply IH in Hrun. simpl in Hrun.
      rewrite length_app in Hrun. simpl in Hrun. lia.
    + intros Hrun. apply IH in Hrun. simpl in Hrun.
      assert (List.length
                match previewTimer c with
                | Some handle => filter (λ h, h ≠ handle) (timers c)
                | None => timers c
                end ≤ List.length (timers c))%nat
        by (destruct (previewTimer c); [apply length_filter|done]).
      lia.
    + destruct (bool_decide (handle ∈ timers c)) eqn:Harmed; [|done].
      apply bool_decide_eq_true in Harmed.
      intros Hrun. apply IH in Hrun. simpl in Hrun.
      rewrite length_app in Hrun. simpl in Hrun.
      pose proof (length_filter_lt (λ h, h ≠ handle) (timers c) handle Harmed) as Hlt.
      assert (List.length (filter (λ h, h ≠ handle) (timers c))
              < List.length (timers c))%nat by (apply Hlt; by intros ?).
      lia.
    + destruct (bool_decide (frame ∈ inflight c)); [|done].
      intros Hrun. apply IH in Hrun. simpl in Hrun. lia.
Qed.

(** X10: in every run of a card, whatever the order of the events, the card
    requests the video list at most once per [mouseenter]. *)
Theorem one_request_per_enter (movie : Movie) (es : list Event) (c : Card) :
  run es (createPosterCard movie) = Some c →
  (List.length (requests c) ≤ count_enters es)%nat.
Proof. intros Hrun. apply requests_bounded in Hrun. simpl in Hrun. lia. Qed.

Lemma one_request_per_enter_witness :
  (List.length
     (requests (preview_settle 0 sample_reply
                  (mouseleave (timer_fires 1 (mouseenter (createPosterCard sample_movie))))))
   ≤ count_enters [MouseEnter; TimerFires 1; MouseLeave; FetchSettles 0 sample_reply])%nat.
Proof.
  apply (one_request_per_enter sample_movie
           [MouseEnter; TimerFires 1; MouseLeave; FetchSettles 0 sample_reply]).
  reflexivity.
Defined.

Lemma run_keeps_card (es : list Event) :
  ∀ c c', run es c = Some c' →
          movie c' = movie c ∧ dataset_id c' = dataset_id c
          ∧ img_src c' = img_src c ∧ img_alt c' = img_alt c
          ∧ title_text c' = title_text c
          ∧ (Forall (λ url, url = tmdbFetch_url (videos_query (movie c))) (requests c) →
             Forall (λ url, url = tmdbFetch_url (videos_query (movie c))) (requests c')).
Proof.
  induction es as [|e es IH]; intros c c'; simpl.
  - by intros [= <-].
  - destruct e as [| |handle|frame outcome]; simpl.
    + intros Hrun. by apply IH in Hrun.
    + intros Hrun. by apply IH in Hrun.
    + destruct (bool_decide (handle ∈ timers c)); [|done].
      intros Hrun. apply IH in Hrun as (-> & -> & -> & -> & -> & Hreq).
      simpl in *. repeat split; try done.
      intros Hall. apply Hreq. apply Forall_app. split; [done|]. by constructor.
    + destruct (bool_decide (frame ∈ inflight c)); [|done].
      intros Hrun. by apply IH in Hrun.
Qed.

(** X11: whatever happens to a card, it stays the card of its movie: the
    movie, the id in [dataset], the image, its [alt] and the title never
    change, and every request the card makes is the video-list request of
    that movie, with the id as [String] prints it, form-encoded. *)
Theorem card_requests_own_videos (m : Movie) (es : list Event) (c : Card) :
  run es (createPosterCard m) = Some c →
  movie c = m
  ∧ dataset_id c = Number_toString (m_id m)
  ∧ img_src c = img_src (createPosterCard m)
  ∧ img_alt c = img_alt (createPosterCard m)
  ∧ title_text c = title_text (createPosterCard m)
  ∧ Forall (λ url, url = "/.netlify/functions/tmdb?type=videos&movieId="
                         +:+ form_encode (Number_toString (m_id m)))
      (requests c).
Proof.
  intros Hrun. apply run_keeps_card in Hrun as (-> & -> & -> & -> & -> & Hreq).
  repeat split; try done. apply Hreq. constructor.
Qed.

Lemma card_requests_own_videos_witness :
  movie (timer_fires 1 (mouseenter (createPosterCard sample_movie))) = sample_movie
  ∧ dataset_id (timer_fires 1 (mouseenter (createPosterCard sample_movie)))
    = Number_toString (m_id sample_movie)
  ∧ img_src (timer_fires 1 (mouseenter (createPosterCard sample_movie)))
    = img_src (createPosterCard sample_movie)
  ∧ img_alt (timer_fires 1 (mouseenter (createPosterCard sample_movie)))
    = img_alt (createPosterCard sample_movie)
  ∧ title_text (timer_fires 1 (mouseenter (createPosterCard sample_movie)))
    = title_text (createPosterCard sample_movie)
  ∧ Forall (λ url, url = "/.netlify/functions/tmdb?type=videos&movieId="
                         +:+ form_encode (Number_toString (m_id sample_movie)))
      (requests (timer_fires 1 (mouseenter (createPosterCard sample_movie)))).
Proof.
  apply (card_requests_own_videos sample_movie [MouseEnter; TimerFires 1]).
  reflexivity.
Defined.

(** A movie whose id is 1e21: [String] prints it in exponent form and the
    plus sign is encoded in the URL. *)
Example large_id_request :
  requests (timer_fires 1
              (mouseenter
                 (createPosterCard
                    {| m_id := Num "1e+21"; title := None; name := None;
                       overview := None; poster_path := None;
                       backdrop_path := None |})))
  = ["/.netlify/functions/tmdb?type=videos&movieId=1e%2B21"]
  ∧ img_alt (createPosterCard
               {| m_id := Num "1e+21"; title := None; name := None;
                  overview := None; poster_path := None; backdrop_path := None |})
    = "undefined".
Proof. split; reflexivity. Qed.

(** X12: [mouseenter] arms a new timeout without clearing the one it held:
    when the pointer enters twice before leaving, [mouseleave] clears only
    the second timeout; the first is still armed and, when it expires, mounts
    a frame and requests the video list although the pointer is outside. *)
Theorem second_enter_orphans_timeout (c : Card) :
  idle c →
  ∃ c3 c4,
    run [MouseEnter; MouseEnter; MouseLeave] c = Some c3
    ∧ previewTimer c3 = None
    ∧ timers c3 = [next_handle c]
    ∧ step (TimerFires (next_handle c)) c3 = Some c4
    ∧ mounted c4 = [List.length (frames c)]
    ∧ requests c4 = requests c ++ [tmdbFetch_url (videos_query (movie c))].
Proof.
  intros (Hheld & Htimers & Hmounted).
  assert (Hleft : timers (mouseleave (mouseenter (mouseenter c))) = [next_handle c]).
  { simpl. rewrite Htimers. simpl. rewrite !filter_cons, filter_nil.
    rewrite decide_True by lia. by rewrite decide_False by (by intros ?). }
  exists (mouseleave (mouseenter (mouseenter c))).
  exists (timer_fires (next_handle c) (mouseleave (mouseenter (mouseenter c)))).
  split; [done|]. split; [done|]. split; [exact Hleft|].
  split.
  { cbn [step]. rewrite Hleft. rewrite bool_decide_eq_true_2; [done|].
    apply list_elem_of_here. }
  split; [|done]. simpl. by rewrite Hmounted.
Qed.

Lemma second_enter_orphans_timeout_witness :
  ∃ c3 c4,
    run [MouseEnter; MouseEnter; MouseLeave] (createPosterCard sample_movie) = Some c3
    ∧ previewTimer c3 = None
    ∧ timers c3 = [next_handle (createPosterCard sample_movie)]
    ∧ step (TimerFires (next_handle (createPosterCard sample_movie))) c3 = Some c4
    ∧ mounted c4 = [List.length (frames (createPosterCard sample_movie))]
    ∧ requests c4
      = requests (createPosterCard sample_movie)
        ++ [tmdbFetch_url (videos_query (movie (createPosterCard sample_movie)))].
Proof.
  apply (second_enter_orphans_timeout (createPosterCard sample_movie)).
  unfold idle. simpl. repeat split; reflexivity.
Defined.

(** X13: when the pointer stays, the frame of the hover ends up filled,
    whatever the request gives: with the iframe of the first accepted video,
    with the notice "Preview not available" when none is accepted, with the
    notice "Preview failed" when the request fails; it is the only frame in
    the card. *)
Theorem preview_frame_is_filled (c : Card) (outcome : Fetched (Data Video)) :
  idle c →
  ∃ c' content,
    run [MouseEnter; TimerFires (next_handle c);
         FetchSettles (List.length (frames c)) outcome] c = Some c'
    ∧ mounted c' = [List.length (frames c)]
    ∧ frames c' !! List.length (frames c) = Some content
    ∧ content ≠ Placeholder
    ∧ match tmdbFetch_settle outcome with
      | Ok data =>
          match find card_accepts (results_or_empty data) with
          | Some vid =>
              content
              = Iframe ("https://www.youtube.com/embed/" +:+ key vid
                        +:+ "?rel=0&enablejsapi=1&playsinline=1&"
                        +:+ "autoplay=1&mute=1&controls=0&loop=1&playlist="
                        +:+ key vid)
          | None =>
              content
              = Notice (div_style "padding:10px;color:#ddd;text-align:center"
                          "Preview not available")
          end
      | Throw _ =>
          content
          = Notice (div_style "padding:10px;color:#ddd;text-align:center"
                      "Preview failed")
      end.
Proof.
  intros (Hheld & Htimers & Hmounted).
  assert (Harmed : bool_decide (next_handle c ∈ timers (mouseenter c)) = true).
  { apply bool_decide_eq_true_2. simpl. rewrite Htimers. apply list_elem_of_here. }
  assert (Hflight : bool_decide
            (List.length (frames c)
             ∈ inflight (timer_fires (next_handle c) (mouseenter c))) = true).
  { apply bool_decide_eq_true_2. simpl. apply elem_of_app. right.
    apply list_elem_of_here. }
  eexists. eexists.
  split; [by cbn [run step]; rewrite Harmed, Hflight|].
  split; [by simpl; rewrite Hmounted|].
  split.
  { simpl. replace (List.length (frames c)) with (List.length (frames c) + 0)%nat
      at 1 2 by lia.
    rewrite insert_app_r. simpl. apply list_lookup_middle. lia. }
  destruct (tmdbFetch_settle outcome) as [data|err]; [|done].
  by destruct (find card_accepts (results_or_empty data)).
Qed.

Lemma preview_frame_is_filled_witness :
  ∃ c' content,
    run [MouseEnter; TimerFires (next_handle (createPosterCard sample_movie));
         FetchSettles (List.length (frames (createPosterCard sample_movie)))
           sample_reply] (createPosterCard sample_movie) = Some c'
    ∧ mounted c' = [List.length (frames (createPosterCard sample_movie))]
    ∧ frames c' !! List.length (frames (createPosterCard sample_movie)) = Some content
    ∧ content ≠ Placeholder
    ∧ match tmdbFetch_settle sample_reply with
      | Ok data =>
          match find card_accepts (results_or_empty data) with
          | Some vid =>
              content
              = Iframe ("https://www.youtube.com/embed/" +:+ key vid
                        +:+ "?rel=0&enablejsapi=1&playsinline=1&"
                        +:+ "autoplay=1&mute=1&controls=0&loop=1&playlist="
                        +:+ key vid)
          | None =>
              content
              = Notice (div_style "padding:10px;color:#ddd;text-align:center"
                          "Preview not available")
          end
      | Throw _ =>
          content
          = Notice (div_style "padding:10px;color:#ddd;text-align:center"
                      "Preview failed")
      end.
Proof.
  apply (preview_frame_is_filled (createPosterCard sample_movie) sample_reply).
  unfold idle. simpl. repeat split; reflexivity.
Defined.

End PreviewMore.

(** ** Further properties of the hero and of the initial load *)

Module PageMore.
Import Runtime Script Site.

Lemma or_else_nonempty (v : option string) (d : string) : d ≠ "" → or_else v d ≠ "".
Proof.
  intros Hd. destruct v as [x|]; [|done]. simpl.
  by destruct (String.eqb_spec x "").
Qed.

(** X14: whatever the movie lacks and whatever becomes of the request, the
    hero title is never empty: it is the title of the movie, else its name,
    else "Featured"; and the overview shown is the movie's, else empty. *)
Theorem hero_title_never_empty (net : Network) (movie : Movie) (p : Page) :
  heroTitle (setHero net movie p) ≠ ""
  ∧ heroTitle (setHero net movie p)
    = (if truthy (title movie) then interpolate (title movie)
       else if truthy (name movie) then interpolate (name movie)
       else "Featured")
  ∧ heroOverview (setHero net movie p) = default "" (overview movie).
Proof.
  assert (Hsame : heroTitle (setHero net movie p)
                  = or_else (or_value (title movie) (name movie)) "Featured"
                  ∧ heroOverview (setHero net movie p) = or_else (overview movie) "").
  { unfold setHero, setHero_settle. by destruct (tmdbFetch_settle _). }
  destruct Hsame as [-> ->]. split; [by apply or_else_nonempty|]. split.
  - unfold or_value.
    destruct (title movie) as [t|]; simpl.
    + destruct (String.eqb_spec t ""); simpl; [|by destruct (String.eqb_spec t "")].
      destruct (name movie) as [n|]; simpl; [|done].
      by destruct (String.eqb_spec n "").
    + destruct (name movie) as [n|]; simpl; [|done].
      by destruct (String.eqb_spec n "").
  - destruct (overview movie) as [o|]; simpl; [|done].
    by destruct (String.eqb_spec o "").
Qed.

Lemma hero_run_snoc (es : list HeroEvent) (e : HeroEvent) (p : Page) :
  hero_run (es ++ [e]) p = hero_step e (hero_run es p).
Proof. unfold hero_run. by rewrite foldl_app. Qed.

Lemma last_selected_snoc (es : list HeroEvent) (e : HeroEvent) :
  ∀ before,
    last_selected (es ++ [e]) before
    = match e with
      | Selected movie => Some movie
      | VideosSettle _ _ => last_selected es before
      end.
Proof.
  induction es as [|e' es IH]; intros before; [by destruct e|].
  destruct e'; simpl; apply IH.
Qed.

Lemma last_shown_snoc (es : list HeroEvent) (e : HeroEvent) :
  ∀ before,
    last_shown (es ++ [e]) before
    = match e with
      | Selected _ => last_shown es before
      | VideosSettle movie outcome =>
          match reply_data outcome with
          | Some data => Some (spec_hero_node movie data)
          | None => last_shown es before
          end
      end.
Proof.
  induction es as [|e' es IH]; intros before.
  - destruct e as [|movie outcome]; simpl; [done|]. by destruct (reply_data outcome).
  - destruct e' as [|movie' outcome']; simpl; [apply IH|].
    destruct (reply_data outcome'); apply IH.
Qed.

(** What one settlement does to the hero. *)
Lemma setHero_settle_spec (movie : Movie) (outcome : Fetched (Data Video)) (p : Page) :
  heroTitle (setHero_settle movie outcome p) = heroTitle p
  ∧ heroOverview (setHero_settle movie outcome p) = heroOverview p
  ∧ heroVideoContainer (setHero_settle movie outcome p)
    = match reply_data outcome with
      | Some data => [spec_hero_node movie data]
      | None => heroVideoContainer p
      end.
Proof.
  unfold setHero_settle, tmdbFetch_settle, reply_data.
  destruct outcome as [message|[[|] [data|err]]]; simpl; try done.
  repeat split. f_equal. unfold spec_hero_node, results_or_empty.
  destruct (find hero_accepts (default [] (results data))); [done|].
  f_equal. unfold hero_background.
  destruct (backdrop_path movie) as [b|], (poster_path movie) as [q|]; simpl;
    repeat case_decide; subst; simpl; try done;
    repeat match goal with
           | H : ?x ≠ "" |- context [String.eqb ?x ""] =>
               destruct (String.eqb_spec x ""); [done|]
           end; done.
Qed.

(** What one selection does to the hero. *)
Lemma setHero_begin_text (movie : Movie) (p : Page) :
  heroTitle (setHero_begin movie p)
  = (if truthy (title movie) then interpolate (title movie)
     else if truthy (name movie) then interpolate (name movie)
     else "Featured")
  ∧ heroOverview (setHero_begin movie p) = default "" (overview movie)
  ∧ heroVideoContainer (setHero_begin movie p) = heroVideoContainer p.
Proof.
  simpl. split; [|split; [|done]].
  - unfold or_value.
    destruct (title movie) as [t|]; simpl.
    + destruct (String.eqb_spec t ""); simpl; [|by destruct (String.eqb_spec t "")].
      destruct (name movie) as [n|]; simpl; [|done].
      by destruct (String.eqb_spec n "").
    + destruct (name movie) as [n|]; simpl; [|done].
      by destruct (String.eqb_spec n "").
  - destruct (overview movie) as [o|]; simpl; [|done].
    by destruct (String.eqb_spec o "").
Qed.

(** X15: the hero slot goes to the request that settles last, not to the
    movie selected last.  After any sequence of selections and settlements,
    title and overview are those of the movie selected last, and the
    container holds exactly the node of the settlement that succeeded last
    (the iframe of the first trailer or teaser of that movie, or else its
    backdrop or poster), whatever it held before and whichever movie is
    selected; failed settlements leave it as it is.  One [setHero] awaited
    alone is a selection followed by its settlement. *)
Theorem hero_shows_last_settled (es : list HeroEvent) (p : Page) :
  heroTitle (hero_run es p)
  = match last_selected es None with
    | Some movie =>
        if truthy (title movie) then interpolate (title movie)
        else if truthy (name movie) then interpolate (name movie)
        else "Featured"
    | None => heroTitle p
    end
  ∧ heroOverview (hero_run es p)
    = match last_selected es None with
      | Some movie => default "" (overview movie)
      | None => heroOverview p
      end
  ∧ heroVideoContainer (hero_run es p)
    = match last_shown es None with
      | Some node => [node]
      | None => heroVideoContainer p
      end
  ∧ ∀ net movie,
      setHero net movie p
      = hero_run
          [Selected movie;
           VideosSettle movie (fetch_videos net (tmdbFetch_url (videos_query movie)))] p.
Proof.
  split; [|split; [|split; [|done]]];
    induction es as [|e es IH] using rev_ind; try done;
    rewrite hero_run_snoc, ?last_selected_snoc, ?last_shown_snoc;
    destruct e as [movie|movie outcome]; cbn [hero_step].
  - apply setHero_begin_text.
  - by rewrite (proj1 (setHero_settle_spec movie outcome _)).
  - apply setHero_begin_text.
  - by rewrite (proj1 (proj2 (setHero_settle_spec movie outcome _))).
  - by rewrite (proj2 (proj2 (setHero_begin_text movie _))).
  - rewrite (proj2 (proj2 (setHero_settle_spec movie outcome _))).
    by destruct (reply_data outcome).
Qed.

(** Two selections whose requests settle in the other order, both with
    success: the node of the first movie ends up under the title of the
    second. *)
Example earlier_selection_settles_late
    (first second : Movie) (data1 data2 : Data Video) (p : Page) :
  heroVideoContainer
    (hero_run
       [Selected first; Selected second;
        VideosSettle second (Replied {| res_ok := true; res_json := Ok data2 |});
        VideosSettle first (Replied {| res_ok := true; res_json := Ok data1 |})] p)
  = [spec_hero_node first data1]
  ∧ heroTitle
      (hero_run
         [Selected first; Selected second;
          VideosSettle second (Replied {| res_ok := true; res_json := Ok data2 |});
          VideosSettle first (Replied {| res_ok := true; res_json := Ok data1 |})] p)
    = heroTitle (setHero_begin second p).
Proof.
  unfold hero_run. cbn [foldl hero_step]. split.
  - by rewrite (proj2 (proj2 (setHero_settle_spec first _ _))).
  - by rewrite !(proj1 (setHero_settle_spec _ _ _)).
Qed.

(** The rows leave the hero alone. *)
Lemma rows_keep_hero (net : Network) (genres : list Genre) :
  ∀ p, heroTitle (foldl (λ p g, makeRow net g p) p genres) = heroTitle p
       ∧ heroOverview (foldl (λ p g, makeRow net g p) p genres) = heroOverview p
       ∧ heroVideoContainer (foldl (λ p g, makeRow net g p) p genres)
         = heroVideoContainer p.
Proof.
  induction genres as [|g genres IH]; intros p; simpl; [done|].
  destruct (IH (makeRow net g p)) as (-> & -> & ->).
  by rewrite ScriptSpec.makeRow_spec.
Qed.

(** X16: [init] requests the five rows, then the featured page of the first
    genre sorted by vote, then the videos of the first movie of that page if
    there is one; the hero step leaves the rows as the loop made them, and
    when the featured request fails or has no result the hero is left
    untouched. *)
Theorem init_requests_in_order (net : Network) (p : Page) :
  rowsContainer (init net p) = rowsContainer (init_rows net p)
  ∧ fetched (init net p)
    = fetched p ++ (row_url <$> GENRES)
      ++ ["/.netlify/functions/tmdb?type=discover&genre=878&limit=10&sort_by=vote_average.desc"]
      ++ match tmdbFetch_settle
                 (fetch_movies net
                    "/.netlify/functions/tmdb?type=discover&genre=878&limit=10&sort_by=vote_average.desc")
         with
         | Ok data =>
             match results_or_empty data with
             | featured :: _ => [tmdbFetch_url (videos_query featured)]
             | [] => []
             end
         | Throw _ => []
         end
  ∧ (match tmdbFetch_settle
             (fetch_movies net
                "/.netlify/functions/tmdb?type=discover&genre=878&limit=10&sort_by=vote_average.desc")
     with
     | Ok data => results_or_empty data = []
     | Throw _ => True
     end →
     heroTitle (init net p) = heroTitle p
     ∧ heroOverview (init net p) = heroOverview p
     ∧ heroVideoContainer (init net p) = heroVideoContainer p).
Proof.
  destruct (ScriptSpec.makeRows_spec net GENRES p) as [_ Hfetched].
  destruct (rows_keep_hero net GENRES p) as (Ht & Ho & Hc).
  fold (init_rows net p) in Hfetched, Ht, Ho, Hc.
  unfold init. cbn [GENRES g_id].
  change (tmdbFetch_url
            [("type", "discover"); ("genre", Number_toString (Num "878"));
             ("limit", Number_toString (Num "10")); ("sort_by", "vote_average.desc")])
    with "/.netlify/functions/tmdb?type=discover&genre=878&limit=10&sort_by=vote_average.desc".
  destruct (tmdbFetch_settle _) as [data|err]; simpl.
  - destruct (results_or_empty data) as [|featured rest]; simpl.
    + rewrite Hfetched, <- !app_assoc. by rewrite Ht, Ho, Hc.
    + unfold setHero, setHero_settle.
      destruct (tmdbFetch_settle _); simpl; rewrite Hfetched, <- !app_assoc;
        by repeat split.
  - rewrite Hfetched, <- !app_assoc. by rewrite Ht, Ho, Hc.
Qed.

End PageMore.

(** ** The page against the function *)

Module SiteSpec.
Import Runtime Script Site.

Lemma row_query_lookup (genre : Genre) :
  Tmdb.query (event_of_query (row_query genre)) !! "type" = Some "discover"
  ∧ Tmdb.query (event_of_query (row_query genre)) !! "genre"
    = Some (Number_toString (g_id genre))
  ∧ Tmdb.query (event_of_query (row_query genre)) !! "sort_by" = None.
Proof.
  unfold Tmdb.query, event_of_query, row_query. simpl.
  split; [apply lookup_insert_eq|]. split.
  - rewrite lookup_insert_ne by done. apply lookup_insert_eq.
  - by rewrite !lookup_insert_ne, lookup_empty by done.
Qed.

Lemma target_of_row (apiKey : string) (genre : Genre) :
  Tmdb.target_url apiKey (event_of_query (row_query genre))
  = Some ("https://api.themoviedb.org/3/discover/movie?api_key=" +:+ form_encode apiKey
          +:+ "&with_genres=" +:+ form_encode (Number_toString (g_id genre))
          +:+ "&sort_by=popularity.desc&page=1").
Proof.
  destruct (row_query_lookup genre) as (Htype & Hgenre & Hsort).
  unfold Tmdb.target_url, Tmdb.request_type. rewrite Htype.
  unfold Tmdb.route, Tmdb.discover_params. rewrite Hgenre, Hsort.
  cbn [or_else String.eqb Ascii.eqb Bool.eqb].
  destruct (String.eqb_spec (Number_toString (g_id genre)) "") as [->|_];
    reflexivity.
Qed.

(** A status 400 after an upstream call is the upstream's own. *)
Lemma status_400_is_upstream env fetch event apiKey url :
  env !! "TMDB_API_KEY" = Some apiKey → apiKey ≠ "" →
  Tmdb.target_url apiKey event = Some url →
  Tmdb.statusCode (Tmdb.handler env fetch event).1 = 400 →
  ∃ resp, fetch url = Tmdb.Resolved resp ∧ Tmdb.status resp = 400.
Proof.
  intros Hkey Hne Hurl. rewrite (TmdbSpec.handler_with_key _ _ _ _ Hkey Hne).
  unfold Tmdb.target_url in Hurl.
  destruct (Tmdb.route _ _ _) as [e|u]; [done|]. injection Hurl as ->.
  destruct (fetch url) as [|resp]; [done|].
  destruct (negb (Tmdb.ok resp)).
  - destruct (Tmdb.text resp); [|done]. simpl. eauto.
  - by destruct (Tmdb.json_body resp).
Qed.

(** X17: the function never rejects the queries of the page by its own
    validation.  With the credential configured, the query of a row always
    leads to exactly one upstream call, to the discover URL with the genre
    of the row, the default sort order and page 1 (its [limit] is dropped);
    the query of a hover preview or of the hero, for a movie whose id does
    not print as the empty string (no number does), always leads to exactly
    one upstream call, to the videos URL of the movie; and if the answer to
    either has status 400, it is the upstream that answered 400. *)
Theorem page_queries_reach_upstream
    (env : gmap string string) (fetch : string → Tmdb.FetchResult)
    (apiKey : string) (genre : Genre) (movie : Movie) :
  env !! "TMDB_API_KEY" = Some apiKey → apiKey ≠ "" →
  Number_toString (m_id movie) ≠ "" →
  (Tmdb.handler env fetch (event_of_query (row_query genre))).2
  = ["https://api.themoviedb.org/3/discover/movie?api_key=" +:+ form_encode apiKey
     +:+ "&with_genres=" +:+ form_encode (Number_toString (g_id genre))
     +:+ "&sort_by=popularity.desc&page=1"]
  ∧ (Tmdb.handler env fetch (event_of_query (videos_query movie))).2
    = ["https://api.themoviedb.org/3/movie/" +:+ Number_toString (m_id movie)
       +:+ "/videos?api_key=" +:+ apiKey]
  ∧ (Tmdb.statusCode (Tmdb.handler env fetch (event_of_query (row_query genre))).1
     = 400 →
     ∃ resp,
       fetch ("https://api.themoviedb.org/3/discover/movie?api_key="
              +:+ form_encode apiKey +:+ "&with_genres="
              +:+ form_encode (Number_toString (g_id genre))
              +:+ "&sort_by=popularity.desc&page=1") = Tmdb.Resolved resp
       ∧ Tmdb.status resp = 400)
  ∧ (Tmdb.statusCode (Tmdb.handler env fetch (event_of_query (videos_query movie))).1
     = 400 →
     ∃ resp,
       fetch ("https://api.themoviedb.org/3/movie/" +:+ Number_toString (m_id movie)
              +:+ "/videos?api_key=" +:+ apiKey) = Tmdb.Resolved resp
       ∧ Tmdb.status resp = 400).
Proof.
  intros Hkey Hne Hid.
  pose proof (target_of_row apiKey genre) as Hrow.
  pose proof (TmdbMore.target_of_videos apiKey _ Hid) as Hvideos.
  fold (videos_query movie) in Hvideos.
  rewrite !(TmdbMore.handler_calls _ _ _ _ Hkey Hne), Hrow, Hvideos.
  split; [done|]. split; [done|]. split.
  - intros H400. exact (status_400_is_upstream _ _ _ apiKey _ Hkey Hne Hrow H400).
  - intros H400. exact (status_400_is_upstream _ _ _ apiKey _ Hkey Hne Hvideos H400).
Qed.

Lemma page_queries_reach_upstream_witness :
  (Tmdb.handler Tmdb.sample_env Tmdb.failing_upstream
     (event_of_query (row_query {| g_id := Num "18"; g_name := "Drama" |}))).2
  = ["https://api.themoviedb.org/3/discover/movie?api_key=" +:+ form_encode "K"
     +:+ "&with_genres="
     +:+ form_encode (Number_toString (g_id {| g_id := Num "18"; g_name := "Drama" |}))
     +:+ "&sort_by=popularity.desc&page=1"]
  ∧ (Tmdb.handler Tmdb.sample_env Tmdb.failing_upstream
       (event_of_query (videos_query sample_movie))).2
    = ["https://api.themoviedb.org/3/movie/" +:+ Number_toString (m_id sample_movie)
       +:+ "/videos?api_key=" +:+ "K"]
  ∧ (Tmdb.statusCode
       (Tmdb.handler Tmdb.sample_env Tmdb.failing_upstream
          (event_of_query (row_query {| g_id := Num "18"; g_name := "Drama" |}))).1
     = 400 →
     ∃ resp,
       Tmdb.failing_upstream
         ("https://api.themoviedb.org/3/discover/movie?api_key="
          +:+ form_encode "K" +:+ "&with_genres="
          +:+ form_encode
                (Number_toString (g_id {| g_id := Num "18"; g_name := "Drama" |}))
          +:+ "&sort_by=popularity.desc&page=1") = Tmdb.Resolved resp
       ∧ Tmdb.status resp = 400)
  ∧ (Tmdb.statusCode
       (Tmdb.handler Tmdb.sample_env Tmdb.failing_upstream
          (event_of_query (videos_query sample_movie))).1
     = 400 →
     ∃ resp,
       Tmdb.failing_upstream
         ("https://api.themoviedb.org/3/movie/" +:+ Number_toString (m_id sample_movie)
          +:+ "/videos?api_key=" +:+ "K") = Tmdb.Resolved resp
       ∧ Tmdb.status resp = 400).
Proof.
  apply (page_queries_reach_upstream Tmdb.sample_env Tmdb.failing_upstream "K"
           {| g_id := Num "18"; g_name := "Drama" |} sample_movie).
  - reflexivity.
  - discriminate.
  - discriminate.
Defined.

(** Without a credential every request of the page is answered with an
    error status, so [tmdbFetch] throws. *)
Lemma respond_without_credential {A} parse (decode : string → Res A) env upstream url :
  truthy (env !! "TMDB_API_KEY") = false →
  tmdbFetch_settle (respond parse env upstream decode url)
  = Throw "TMDb function error".
Proof.
  intros Hkey. unfold respond.
  by rewrite (TmdbMore.handler_without_key _ _ _ Hkey).
Qed.

Lemma rows_all_fail (net : Network) (genres : list Genre) :
  (∀ url, tmdbFetch_settle (fetch_movies net url) = Throw "TMDb function error") →
  ∀ p,
    foldl (λ p g, makeRow net g p) p genres
    = {| rowsContainer :=
           rowsContainer p
           ++ ((λ g, {| row_title := g_name g; track := [HtmlNode (row_fallback g)] |})
                 <$> genres);
         heroTitle := heroTitle p; heroOverview := heroOverview p;
         heroVideoContainer := heroVideoContainer p;
         console := console p ++ replicate (List.length genres) "Failed to load row:";
         fetched := fetched p ++ (row_url <$> genres) |}.
Proof.
  intros Hfail. induction genres as [|g genres IH]; intros p; simpl.
  - rewrite !app_nil_r. by destruct p.
  - rewrite IH, ScriptSpec.makeRow_spec. unfold rendered_row. rewrite Hfail.
    simpl. by rewrite <- !app_assoc.
Qed.

(** X18: when the function has no credential, every row of the page shows
    its own failure message, the hero is left untouched, and the console has
    one error per row and one for the featured movie; this holds however the
    platform maps URLs to events and bodies to data. *)
Theorem page_without_credential
    (parse : string → Tmdb.Event)
    (decode_movies : string → Res (Data Movie))
    (decode_videos : string → Res (Data Video))
    (env : gmap string string) (upstream : string → Tmdb.FetchResult) (p : Page) :
  truthy (env !! "TMDB_API_KEY") = false →
  rowsContainer (init (served parse decode_movies decode_videos env upstream) p)
  = rowsContainer p
    ++ ((λ g, {| row_title := g_name g; track := [HtmlNode (row_fallback g)] |})
          <$> GENRES)
  ∧ heroTitle (init (served parse decode_movies decode_videos env upstream) p)
    = heroTitle p
  ∧ heroOverview (init (served parse decode_movies decode_videos env upstream) p)
    = heroOverview p
  ∧ heroVideoContainer (init (served parse decode_movies decode_videos env upstream) p)
    = heroVideoContainer p
  ∧ console (init (served parse decode_movies decode_videos env upstream) p)
    = console p ++ replicate 5 "Failed to load row:" ++ ["Failed to set featured"].
Proof.
  intros Hkey.
  assert (Hfail : ∀ url,
    tmdbFetch_settle
      (fetch_movies (served parse decode_movies decode_videos env upstream) url)
    = Throw "TMDb function error")
    by (intros url; by apply respond_without_credential).
  unfold init, init_rows. rewrite (rows_all_fail _ GENRES Hfail p).
  cbn [GENRES]. rewrite Hfail. simpl. by rewrite <- app_assoc.
Qed.

Lemma page_without_credential_witness :
  rowsContainer
    (init (served (λ _, Tmdb.sample_event []) (λ _, Throw "") (λ _, Throw "") ∅
             Tmdb.sample_upstream) empty_page)
  = rowsContainer empty_page
    ++ ((λ g, {| row_title := g_name g; track := [HtmlNode (row_fallback g)] |})
          <$> GENRES)
  ∧ heroTitle
      (init (served (λ _, Tmdb.sample_event []) (λ _, Throw "") (λ _, Throw "") ∅
               Tmdb.sample_upstream) empty_page)
    = heroTitle empty_page
  ∧ heroOverview
      (init (served (λ _, Tmdb.sample_event []) (λ _, Throw "") (λ _, Throw "") ∅
               Tmdb.sample_upstream) empty_page)
    = heroOverview empty_page
  ∧ heroVideoContainer
      (init (served (λ _, Tmdb.sample_event []) (λ _, Throw "") (λ _, Throw "") ∅
               Tmdb.sample_upstream) empty_page)
    = heroVideoContainer empty_page
  ∧ console
      (init (served (λ _, Tmdb.sample_event []) (λ _, Throw "") (λ _, Throw "") ∅
               Tmdb.sample_upstream) empty_page)
    = console empty_page ++ replicate 5 "Failed to load row:"
      ++ ["Failed to set featured"].
Proof.
  apply (page_without_credential (λ _, Tmdb.sample_event []) (λ _, Throw "")
           (λ _, Throw "") ∅ Tmdb.sample_upstream empty_page).
  reflexivity.
Defined.

(** X20: what [tmdbFetch] gives the page for a URL served by the function:
    the decoded body exactly when the envelope is the success envelope (the
    one with the Access-Control-Allow-Origin header, status 200), and in
    every other case (no credential, invalid query, upstream error passed
    through, network failure) the one error "TMDb function error": neither
    status nor body of a failure reaches the page. *)
Theorem page_sees_data_or_one_error {A}
    (parse : string → Tmdb.Event) (decode : string → Res A)
    (env : gmap string string) (upstream : string → Tmdb.FetchResult)
    (url : string) :
  tmdbFetch_settle (respond parse env upstream decode url)
  = if Tmdb.has_header "Access-Control-Allow-Origin"
         (Tmdb.handler env upstream (parse url)).1
    then decode (Tmdb.body (Tmdb.handler env upstream (parse url)).1)
    else Throw "TMDb function error".
Proof.
  unfold respond.
  destruct (TmdbMore.key_cases env) as [Hno|(apiKey & Hkey & Hne & _)].
  - by rewrite (TmdbMore.handler_without_key _ _ _ Hno).
  - rewrite (TmdbSpec.handler_with_key _ _ _ _ Hkey Hne).
    destruct (Tmdb.route _ _ _) as [e|target] eqn:Hroute.
    { unfold Tmdb.route in Hroute.
      repeat (destruct (String.eqb _ _) in Hroute);
        repeat (destruct (negb _) in Hroute); by simplify_eq. }
    destruct (upstream target) as [|resp]; [done|].
    destruct (Tmdb.ok resp) eqn:Hok; simpl.
    + by destruct (Tmdb.json_body resp).
    + destruct (Tmdb.text resp); [|done].
      unfold Tmdb.ok in Hok. simpl. by rewrite Hok.
Qed.

End SiteSpec.

(** ** Properties of [initAuth] *)

Module AuthSpec.
Import Auth.

Lemma last_mode_after (es : list Event) :
  ∀ b, last_mode es (Some b)
       = match last_mode es None with
         | Some b' => Some b'
         | None => Some b
         end.
Proof.
  induction es as [|e es IH]; intros b; [done|].
  destruct e; simpl; rewrite ?IH; try done; by destruct (last_mode es None).
Qed.

(** X19: after any sequence of events the page is what the last events of
    each kind say.  Without the identity widget: the fallback modal is
    hidden exactly if, among the clicks on login, sign-up and close, the
    last was on close (and as before if there was none); it shows the mode
    clicked last, title "Sign up" with the name field displayed for sign-up,
    title "Login" with the name field hidden for login; its message is the
    notice that no real user is created once the form was submitted; and the
    login button and the widget are never touched.  With the widget: the
    login button shows the email of the user logged in last, or "Login"
    after a logout; the widget is open on the tab clicked last, or closed
    after a login; and the fallback modal is never touched. *)
Theorem auth_follows_last_events (es : list Event) (d : Dom) :
  (modal_hidden (run false es d) = last_hidden es (modal_hidden d)
   ∧ (forSignup (run false es d), fallbackTitle (run false es d),
      nameField_display (run false es d))
     = match last_mode es None with
       | Some true => (true, "Sign up", "block")
       | Some false => (false, "Login", "none")
       | None => (forSignup d, fallbackTitle d, nameField_display d)
       end
   ∧ fallbackMsg (run false es d)
     = (if submitted es
        then "This fallback modal doesn't create a real user. To enable real sign up/login, enable Netlify Identity in your site (see README)."
        else fallbackMsg d)
   ∧ loginBtn (run false es d) = loginBtn d
   ∧ widget (run false es d) = widget d)
  ∧ (loginBtn (run true es d) = last_session es (loginBtn d)
     ∧ widget (run true es d) = last_widget es (widget d)
     ∧ modal_hidden (run true es d) = modal_hidden d
     ∧ fallbackTitle (run true es d) = fallbackTitle d
     ∧ nameField_display (run true es d) = nameField_display d
     ∧ fallbackMsg (run true es d) = fallbackMsg d
     ∧ forSignup (run true es d) = forSignup d).
Proof.
  revert d. induction es as [|e es IH]; intros d; [done|].
  change (run false (e :: es) d) with (run false es (step false e d)).
  change (run true (e :: es) d) with (run true es (step true e d)).
  destruct (IH (step false e d)) as ((Hh & Hm & Hmsg & Hbtn & Hw) & _).
  destruct (IH (step true e d)) as (_ & Hs & Hw' & Hh' & Ht' & Hn' & Hmsg' & Hf').
  rewrite Hh, Hm, Hmsg, Hbtn, Hw, Hs, Hw', Hh', Ht', Hn', Hmsg', Hf'.
  destruct e; cbn [last_hidden last_mode submitted last_session last_widget];
    rewrite ?last_mode_after; simpl;
    repeat split; try done;
    try (by destruct (last_mode es None) as [[|]|]);
    by destruct (submitted es).
Qed.

(** The last word of the identity widget decides the login button. *)
Example login_then_logout :
  loginBtn (run true [ClickLogin; IdentityLogin {| email := "a@b.c" |}] sample_dom)
  = "a@b.c"
  ∧ widget (run true [ClickLogin; IdentityLogin {| email := "a@b.c" |}] sample_dom)
    = Closed
  ∧ loginBtn (run true [ClickLogin; IdentityLogin {| email := "a@b.c" |};
                        IdentityLogout] sample_dom) = "Login".
Proof. repeat split. Qed.

End AuthSpec.
